(** * WebScan: the change-detection pipeline of [website_monitor.py]

    A shallow embedding of the class [WebsiteMonitor]: content extraction,
    fingerprinting, the persisted per-URL store, the oracle client and the
    orchestrating loop, followed by the properties of the pipeline.

    Conventions.
    - A Python [str] is a [string]; one [ascii] stands for one character, so
      [String.length] is Python's [len].
    - A Python [dict] with string keys is a [gmap string _]; the store is a
      dict of dicts, exactly as [json.load] returns it and as the code
      writes it.
    - Everything outside the process (HTTP and HTML extraction, the clock,
      the oracle service, the storage file, [time.sleep]) is an operation of
      a [World], threaded through a state-and-exception monad that also
      records the calls made, in order, in a trace.
    - Exceptions carry their class; [except C] is a test with [issubclass].
    - Calls to [logger] only write to the log stream and are left out.

    Domain.  The development covers the runs in which the storage file,
    when it loads, holds what [save_stored_data] writes and [Dict]
    announces: a mapping from URLs to records whose fields are strings.  A
    file that is valid JSON of another shape is outside it.  Characters are
    the code points below 256, all of which [encode('utf-8')] accepts, so
    the digest is a total function. *)

From Stdlib Require Import ZArith String Ascii List Lia DecimalString.
From stdpp Require Import base strings gmap list.

Local Open Scope string_scope.
Local Open Scope Z_scope.

(** ** Python strings *)

Module Str.

(** [len(s)] *)
Definition len (s : string) : Z := Z.of_nat (String.length s).

(** [s[:n]] for a non-negative [n] *)
Definition slice_to (n : Z) (s : string) : string :=
  substring 0 (Z.to_nat n) s.

(** [s.startswith(p)] *)
Definition startswith (p s : string) : bool := String.prefix p s.

(** The characters [str.strip] and the pattern [\s] treat as white space,
    among the first 256 code points. *)
Definition isspace (c : ascii) : bool :=
  let n := N_of_ascii c in
  ((9 <=? n) && (n <=? 13) || (28 <=? n) && (n <=? 32)
   || (n =? 133) || (n =? 160))%N.

Fixpoint lstrip (s : string) : string :=
  match s with
  | String c s' => if isspace c then lstrip s' else s
  | EmptyString => EmptyString
  end.

Fixpoint rstrip (s : string) : string :=
  match s with
  | String c s' =>
      match rstrip s' with
      | EmptyString => if isspace c then EmptyString else String c EmptyString
      | r => String c r
      end
  | EmptyString => EmptyString
  end.

(** [s.strip()] *)
Definition strip (s : string) : string := rstrip (lstrip s).

(** [re.sub(r'\s+', ' ', s)]: every maximal run of white space becomes one
    space.  [in_run] tells that the previous character was white space,
    whose run has already been replaced. *)
Fixpoint sub_spaces_from (in_run : bool) (s : string) : string :=
  match s with
  | String c s' =>
      if isspace c then
        if in_run then sub_spaces_from true s'
        else String " "%char (sub_spaces_from true s')
      else String c (sub_spaces_from false s')
  | EmptyString => EmptyString
  end.

Definition sub_spaces (s : string) : string := sub_spaces_from false s.

(** [sep.join(parts)] *)
Fixpoint join (sep : string) (parts : list string) : string :=
  match parts with
  | [] => ""
  | [p] => p
  | p :: ps => p +:+ sep +:+ join sep ps
  end.

End Str.

(** ** Exceptions *)

(** The exception classes the pipeline can meet, with Python's (and the
    [requests] library's) inheritance: [IOError] is [OSError];
    [requests.RequestException] derives from [IOError];
    [json.JSONDecodeError] and [UnicodeDecodeError] derive from
    [ValueError]; [KeyboardInterrupt] and [SystemExit] derive from
    [BaseException] only. *)
Inductive exn_class : Type :=
  | BaseException | KeyboardInterrupt | SystemExit | Exception
  | OSError | FileNotFoundError | PermissionError
  | RequestException | HTTPError | ConnectionError
  | ValueError | UnicodeError | UnicodeDecodeError | JSONDecodeError
  | LookupError | IndexError | AttributeError | TypeError
  | APIError.

Global Instance exn_class_eq_dec : EqDecision exn_class.
Proof. solve_decision. Defined.

Abbreviation IOError := OSError (only parsing).

Definition base_class (c : exn_class) : option exn_class :=
  match c with
  | BaseException => None
  | KeyboardInterrupt | SystemExit | Exception => Some BaseException
  | OSError | ValueError | LookupError | AttributeError | TypeError
  | APIError => Some Exception
  | FileNotFoundError | PermissionError | RequestException => Some OSError
  | HTTPError | ConnectionError => Some RequestException
  | UnicodeError | JSONDecodeError => Some ValueError
  | UnicodeDecodeError => Some UnicodeError
  | IndexError => Some LookupError
  end.

Fixpoint issubclass_upto (depth : nat) (c d : exn_class) : bool :=
  if decide (c = d) then true
  else match depth with
       | O => false
       | S depth' =>
           match base_class c with
           | Some b => issubclass_upto depth' b d
           | None => false
           end
       end.

(** [issubclass(c, d)]; no class above is more than four steps below
    [BaseException]. *)
Definition issubclass (c d : exn_class) : bool := issubclass_upto 4 c d.

(** An exception object: its class and [str(e)]. *)
Record exn : Type := Exn { exn_type : exn_class; exn_str : string }.

(** [isinstance(e, c)] *)
Definition isinstance (e : exn) (c : exn_class) : bool :=
  issubclass (exn_type e) c.

Inductive outcome (A : Type) : Type :=
  | Returns (a : A)
  | Raises (e : exn).
Arguments Returns {A} a.
Arguments Raises {A} e.

(** ** The store *)

(** One record of the store: the dict with the keys [content], [hash],
    [title], [last_updated] and [first_seen]. *)
Abbreviation site := (gmap string string).

(** The whole store, keyed by URL. *)
Abbreviation store := (gmap string (gmap string string)).

(** [d.update(other)] *)
Definition dict_update (d other : site) : site :=
  other ∪ d.

(** ** The world *)

(** What the HTML library hands back for a fetched document, after the
    non-content elements and the comments are removed: the text of the
    [title] element if there is one, and
    [main_content.get_text(separator=' ', strip=True)] of the first
    matching content selector, of the body, or of the document. *)
Record page : Type := Page { title_tag : option string; main_text : string }.

(** The reply object of the oracle: [choices[i].message.content], which
    may be [None]. *)
Abbreviation completion := (list (option string)).

Record World (W : Type) : Type := {
  (** [requests.get] with [raise_for_status], and the parsing and selection
      done on the document; raises what any of them raises *)
  requests_get : string → W → outcome page * W;
  (** [hashlib.md5(content.encode('utf-8')).hexdigest()] *)
  md5_hexdigest : string → string;
  (** [datetime.now().isoformat()] *)
  datetime_now : W → string * W;
  (** [groq_client.chat.completions.create], given the model, the
      role-tagged messages and [max_tokens] (the temperature is the
      constant [0.1]) *)
  chat_completions_create :
    string → list (string * string) → Z → W → outcome (completion) * W;
  (** [time.sleep] *)
  time_sleep : Z → W → W;
  (** [storage_file.exists()], which raises the [OSError]s it does not take
      for a missing file (a [PermissionError] on the directory, for one) *)
  storage_file_exists : W → outcome bool * W;
  (** [open(storage_file, 'r')] and [json.load] *)
  json_load : W → outcome (store) * W;
  (** [open(storage_file, 'w')] and [json.dump]; [None] when nothing is
      raised *)
  json_dump : store → W → option exn * W;
}.
Arguments requests_get {W} _ _ _.
Arguments md5_hexdigest {W} _ _.
Arguments datetime_now {W} _ _.
Arguments chat_completions_create {W} _ _ _ _ _.
Arguments time_sleep {W} _ _ _.
Arguments storage_file_exists {W} _ _.
Arguments json_load {W} _ _.
Arguments json_dump {W} _ _ _.

(** The calls made to the world, as the trace records them. *)
Inductive event : Type :=
  | EvGet (url : string)
  | EvNow
  | EvOracle (model : string) (messages : list (string * string)) (max_tokens : Z)
  | EvSleep (seconds : Z)
  | EvExists
  | EvLoad
  | EvSave (data : store).

Global Instance event_eq_dec : EqDecision event.
Proof. solve_decision. Defined.


(** ** The monad of the pipeline: world, trace and exceptions *)

Record state (W : Type) : Type := State { world : W; trace : list event }.
Arguments State {W} _ _.
Arguments world {W} _.
Arguments trace {W} _.

Definition M (W A : Type) : Type := state W → outcome A * state W.

Global Instance M_ret {W} : MRet (M W) := λ A a s, (Returns a, s).

Global Instance M_bind {W} : MBind (M W) := λ A B f m s,
  match m s with
  | (Returns a, s') => f a s'
  | (Raises e, s') => (Raises e, s')
  end.

(** [raise e] *)
Definition raise {W A} (e : exn) : M W A := λ s, (Raises e, s).

(** [try: body  except ...: handler]; a handler that matches no clause
    raises the exception again. *)
Definition try_except {W A} (body : M W A) (handler : exn → M W A) : M W A :=
  λ s, match body s with
       | (Returns a, s') => (Returns a, s')
       | (Raises e, s') => handler e s'
       end.

(** A call to the world that may raise, recorded in the trace. *)
Definition call {W A} (ev : event) (op : W → outcome A * W) : M W A :=
  λ s, let (r, w) := op (world s) in (r, State w (trace s ++ [ev])%list).

(** A call to the world that cannot raise. *)
Definition call_total {W A} (ev : event) (op : W → A * W) : M W A :=
  call ev (λ w, let (a, w') := op w in (Returns a, w')).

(** ** The class [WebsiteMonitor] *)

Section WebsiteMonitor.

Context {W : Type}.
(** The surroundings of the process, and [self.model]. *)
Variable env : World W.
Variable model : string.

(** The primitive calls. *)
Definition http_fetch (url : string) : M W page :=
  call (EvGet url) (requests_get env url).

Definition now_isoformat : M W string :=
  call_total EvNow (datetime_now env).

Definition chat_create (messages : list (string * string)) (max_tokens : Z)
  : M W (completion) :=
  call (EvOracle model messages max_tokens)
       (chat_completions_create env model messages max_tokens).

Definition sleep (seconds : Z) : M W unit :=
  call_total (EvSleep seconds) (λ w, (tt, time_sleep env seconds w)).

Definition storage_exists : M W bool :=
  call EvExists (storage_file_exists env).

Definition storage_read : M W (store) :=
  call EvLoad (json_load env).

Definition storage_write (data : store) : M W unit :=
  call (EvSave data)
       (λ w, match json_dump env data w with
             | (None, w') => (Returns tt, w')
             | (Some e, w') => (Raises e, w')
             end).

(** [get_website_content]: the text of the page, white space collapsed and
    trimmed, and its title; the empty text and an error title when the
    fetch or the processing raises. *)
Definition get_website_content (url : string) : M W (string * string) :=
  try_except
    (soup ← http_fetch url;
     let page_title :=
       match title_tag soup with
       | Some t => Str.strip t
       | None => "No title"
       end in
     let text_content := main_text soup in
     let text_content := Str.strip (Str.sub_spaces text_content) in
     mret (text_content, page_title))
    (λ e,
       if isinstance e RequestException
       then mret ("", "Error fetching: " +:+ exn_str e)
       else if isinstance e Exception
       then mret ("", "Error processing: " +:+ exn_str e)
       else raise e).

(** [calculate_content_hash] *)
Definition calculate_content_hash (content : string) : string :=
  md5_hexdigest env content.

(** [load_stored_data] *)
Definition load_stored_data : M W (store) :=
  file_exists ← storage_exists;
  if file_exists : bool then
    try_except storage_read
      (λ e,
         if isinstance e JSONDecodeError || isinstance e IOError
         then mret ∅
         else raise e)
  else mret ∅.

(** [save_stored_data] *)
Definition save_stored_data (data : store) : M W unit :=
  try_except (storage_write data)
    (λ e, if isinstance e IOError then mret tt else raise e).

(** The character budget of [compare_with_ai] and the truncation applied to
    each of the two texts. *)
Definition max_chars : Z := 8000.

Definition truncated (content : string) : string :=
  if Str.len content >? max_chars
  then Str.slice_to max_chars content +:+ "..."
  else content.

Definition newline : string := String (ascii_of_nat 10) "".

(** The user message: the f-string of [compare_with_ai], line by line. *)
Definition comparison_prompt (url site_title old_truncated new_truncated : string)
  : string :=
  Str.join newline
    [ "";
      "You are analyzing changes between two versions of a website. ";
      "Website: " +:+ site_title +:+ " (" +:+ url +:+ ")";
      "";
      "Please compare the old and new content and provide a concise summary of changes in this exact format:";
      "- [Website Name]: [Brief description of changes]";
      "";
      "If there are no meaningful changes, respond with:";
      "- [Website Name]: No significant updates detected.";
      "";
      "Focus on:";
      "1. New articles, posts, or content sections";
      "2. Updated information or announcements  ";
      "3. New features or functionality";
      "4. Removed content (if significant)";
      "";
      "Ignore minor formatting changes, timestamps, or navigation updates.";
      "";
      "OLD CONTENT:";
      old_truncated;
      "";
      "NEW CONTENT:";
      new_truncated;
      "" ].

Definition system_message : string :=
  "You are a helpful assistant that analyzes website changes and provides concise summaries. Always respond with a single bullet point starting with the website name.".

(** [chat_completion.choices[0]] *)
Definition first_choice (choices : completion) : M W (option string) :=
  match choices with
  | c :: _ => mret c
  | [] => raise (Exn IndexError "list index out of range")
  end.

(** [message.content.strip()] *)
Definition content_strip (content : option string) : M W string :=
  match content with
  | Some s => mret (Str.strip s)
  | None => raise (Exn AttributeError "'NoneType' object has no attribute 'strip'")
  end.

(** [compare_with_ai] *)
Definition compare_with_ai (url old_content new_content site_title : string)
  : M W string :=
  try_except
    (let old_truncated := truncated old_content in
     let new_truncated := truncated new_content in
     let prompt := comparison_prompt url site_title old_truncated new_truncated in
     chat_completion ←
       chat_create [("system", system_message); ("user", prompt)] 200;
     choice ← first_choice chat_completion;
     response ← content_strip choice;
     let response :=
       if Str.startswith "-" response then response else "- " +:+ response in
     mret response)
    (λ e,
       if isinstance e Exception
       then mret ("- " +:+ site_title +:+ ": Error analyzing changes - " +:+ exn_str e)
       else raise e).

(** One turn of the loop of [monitor_websites], on the store and the result
    list as they stand. *)
Definition process_url (url : string)
    (stored_data : store) (results : list string)
  : M W (store * list string) :=
  '(current_content, site_title) ← get_website_content url;
  if decide (current_content = "") then
    (* continue *)
    mret (stored_data,
          (results ++ ["- " +:+ url +:+ ": Failed to fetch content"])%list)
  else
    let current_hash := calculate_content_hash current_content in
    '(stored_data, results) ←
      match stored_data !! url with
      | None =>
          last_updated ← now_isoformat;
          first_seen ← now_isoformat;
          mret (<[url := list_to_map
                           [("content", current_content);
                            ("hash", current_hash);
                            ("title", site_title);
                            ("last_updated", last_updated);
                            ("first_seen", first_seen)]]> stored_data,
                (results ++ ["- " +:+ site_title
                             +:+ ": Added to monitoring (baseline established)"])%list)
      | Some entry =>
          let stored_hash := entry !! "hash" in
          let stored_content := default "" (entry !! "content") in
          if decide (Some current_hash = stored_hash) then
            mret (stored_data,
                  (results
                   ++ ["- " +:+ site_title +:+ ": No updates detected"])%list)
          else
            change_summary ←
              compare_with_ai url stored_content current_content site_title;
            last_updated ← now_isoformat;
            mret (<[url := dict_update entry
                             (list_to_map
                                [("content", current_content);
                                 ("hash", current_hash);
                                 ("title", site_title);
                                 ("last_updated", last_updated)])]> stored_data,
                  (results ++ [change_summary])%list)
      end;
    sleep 1;;
    mret (stored_data, results).

(** [for url in websites: ...] *)
Fixpoint for_each_url (websites : list string)
    (stored_data : store) (results : list string)
  : M W (store * list string) :=
  match websites with
  | [] => mret (stored_data, results)
  | url :: rest =>
      '(stored_data, results) ← process_url url stored_data results;
      for_each_url rest stored_data results
  end.

(** [monitor_websites] *)
Definition monitor_websites (websites : list string) : M W (list string) :=
  stored_data ← load_stored_data;
  '(stored_data, results) ← for_each_url websites stored_data [];
  save_stored_data stored_data;;
  mret results.

End WebsiteMonitor.

(** ** Vocabulary of the properties *)

(** The two messages [compare_with_ai] submits for a pair of texts. *)
Definition oracle_messages (url site_title old_content new_content : string)
  : list (string * string) :=
  [("system", system_message);
   ("user", comparison_prompt url site_title
              (truncated old_content) (truncated new_content))].

(** The line written for a failed comparison. *)
Definition error_line (site_title description : string) : string :=
  "- " +:+ site_title +:+ ": Error analyzing changes - " +:+ description.

(** The world raises, from a fetch and from an oracle call, only exceptions
    that derive from [Exception]: failures of the fetch, of the parsing or
    of the oracle, and no interrupt of the process. *)
Definition fetch_failures_are_exceptions {W} (env : World W) : Prop :=
  ∀ url w e w',
    requests_get env url w = (Raises e, w') → isinstance e Exception = true.

Definition oracle_failures_are_exceptions {W} (env : World W) : Prop :=
  ∀ model messages max_tokens w e w',
    chat_completions_create env model messages max_tokens w = (Raises e, w') →
    isinstance e Exception = true.

(** Writing the storage file raises nothing but an [IOError]. *)
Definition write_failures_are_ioerrors {W} (env : World W) : Prop :=
  ∀ data w e w', json_dump env data w = (Some e, w') → isinstance e IOError = true.

(** The URLs fetched, the oracle calls and the pauses of a trace, in order. *)
Definition fetched_urls (tr : list event) : list string :=
  omap (λ ev, match ev with EvGet url => Some url | _ => None end) tr.

Definition is_oracle_call (ev : event) : bool :=
  match ev with EvOracle _ _ _ => true | _ => false end.

Definition oracle_calls (tr : list event) : list event :=
  List.filter is_oracle_call tr.

(** A record whose [hash] is the digest of its [content]. *)
Definition hash_consistent {W} (env : World W) (entry : site) : Prop :=
  ∃ content,
    entry !! "content" = Some content ∧
    entry !! "hash" = Some (calculate_content_hash env content).

(** The state after one more clock reading, and the reading. *)
Definition clock_reading {W} (env : World W) (s : state W) : string :=
  fst (datetime_now env (world s)).

Definition after_clock {W} (env : World W) (s : state W) : state W :=
  State (snd (datetime_now env (world s))) (trace s ++ [EvNow])%list.

(** The state after a pause. *)
Definition after_sleep {W} (env : World W) (seconds : Z) (s : state W) : state W :=
  State (time_sleep env seconds (world s)) (trace s ++ [EvSleep seconds])%list.

(** The baseline record of a newly seen URL. *)
Definition baseline_entry (content hash title last_updated first_seen : string)
  : site :=
  list_to_map
    [("content", content); ("hash", hash); ("title", title);
     ("last_updated", last_updated); ("first_seen", first_seen)].

(** The fields a changed URL overwrites. *)
Definition changed_fields (content hash title last_updated : string)
  : site :=
  list_to_map
    [("content", content); ("hash", hash); ("title", title);
     ("last_updated", last_updated)].

(** ** A scripted world, for running the pipeline on examples *)

(** What changes during a run: the clock readings still to come and the
    storage file (whether it exists and what loading it gives). *)
Record disk : Type := Disk {
  dk_clock : list string;
  dk_exists : bool;
  dk_file : outcome (store);
}.

(** The world of given pages, oracle reply and write failure.  Its digest
    is a stand-in that marks its argument. *)
Definition scripted (pages : string → outcome page)
    (oracle : outcome (completion)) (dump : option exn)
  : World disk := {|
  requests_get url w := (pages url, w);
  md5_hexdigest content := "md5:" +:+ content;
  datetime_now w :=
    (hd "" (dk_clock w), Disk (tl (dk_clock w)) (dk_exists w) (dk_file w));
  chat_completions_create _ _ _ w := (oracle, w);
  time_sleep _ w := w;
  storage_file_exists w := (Returns (dk_exists w), w);
  json_load w := (dk_file w, w);
  json_dump data w :=
    (dump,
     match dump with
     | None => Disk (dk_clock w) true (Returns data)
     | Some _ => w
     end);
|}.

(** Three course pages: one is served, one is blank, any other answers
    404. *)
Definition ml_url : string := "https://cs.example/ml".
Definition blank_url : string := "https://cs.example/blank".
Definition gone_url : string := "https://cs.example/gone".

Definition course_pages (url : string) : outcome page :=
  if decide (url = ml_url) then
    Returns (Page (Some " ML course ") "Course starts Tuesday.  New TA added.")
  else if decide (url = blank_url) then
    Returns (Page None "   ")
  else Raises (Exn HTTPError "404 Client Error: Not Found").

Definition course_world : World disk :=
  scripted course_pages
    (Returns [Some "ML course: the start moved to Tuesday"]) None.

(** The same pages with the oracle out of reach. *)
Definition oracle_down_world : World disk :=
  scripted course_pages (Raises (Exn APIError "Request timed out.")) None.

Definition course_clock : list string :=
  ["2025-09-01T10:00:00.000012"; "2025-09-01T10:00:00.000019";
   "2025-09-01T10:00:02.500000"].

(** A stored baseline of the first page, taken when it read differently. *)
Definition old_ml_entry : site :=
  baseline_entry "Course starts Monday." "md5:Course starts Monday."
    "ML course" "2025-08-01T09:00:00.000000" "2025-08-01T09:00:00.000000".

(** The same page, stored as it is served now. *)
Definition same_ml_entry : site :=
  baseline_entry "Course starts Tuesday. New TA added."
    "md5:Course starts Tuesday. New TA added."
    "ML course" "2025-08-01T09:00:00.000000" "2025-08-01T09:00:00.000000".

(** First run: no storage file. *)
Definition first_run : state disk :=
  State (Disk course_clock false (Returns ∅)) [].

(** A later run over a stored baseline of the first page. *)
Definition later_run (entry : site) : state disk :=
  State (Disk course_clock true (Returns {[ml_url := entry]})) [].

(** A run over a storage file whose bytes are not valid UTF-8. *)
Definition garbled_run : state disk :=
  State (Disk course_clock true
           (Raises (Exn UnicodeDecodeError
              "'utf-8' codec can't decode byte 0xff in position 0: invalid start byte")))
        [].

(** A text one character over the budget. *)
Definition long_text : string :=
  String.concat "" (repeat "a" (Z.to_nat (max_chars + 1))).

(** What [compare_with_ai] makes of the outcome of the oracle call. *)
Definition summary_of (site_title : string) (reply : outcome (completion))
  : outcome string :=
  match reply with
  | Returns (Some text :: _) =>
      Returns (if Str.startswith "-" (Str.strip text)
               then Str.strip text
               else "- " +:+ Str.strip text)
  | Returns (None :: _) =>
      Returns (error_line site_title "'NoneType' object has no attribute 'strip'")
  | Returns [] => Returns (error_line site_title "list index out of range")
  | Raises e =>
      if isinstance e Exception
      then Returns (error_line site_title (exn_str e))
      else Raises e
  end.

(** The outcome of the oracle call for given messages, and the state after
    it. *)
Definition oracle_reply {W} (env : World W) (model : string)
    (messages : list (string * string)) (s : state W)
  : outcome (completion) :=
  fst (chat_completions_create env model messages 200 (world s)).

Definition after_oracle {W} (env : World W) (model : string)
    (messages : list (string * string)) (s : state W) : state W :=
  State (snd (chat_completions_create env model messages 200 (world s)))
        (trace s ++ [EvOracle model messages 200])%list.

(** What [get_website_content] makes of the outcome of the fetch. *)
Definition extracted (fetched : outcome page) : outcome (string * string) :=
  match fetched with
  | Returns soup =>
      Returns (Str.strip (Str.sub_spaces (main_text soup)),
               match title_tag soup with
               | Some t => Str.strip t
               | None => "No title"
               end)
  | Raises e =>
      if isinstance e RequestException
      then Returns ("", "Error fetching: " +:+ exn_str e)
      else if isinstance e Exception
      then Returns ("", "Error processing: " +:+ exn_str e)
      else Raises e
  end.

(** The state after the fetch of a URL. *)
Definition after_fetch {W} (env : World W) (url : string) (s : state W) : state W :=
  State (snd (requests_get env url (world s))) (trace s ++ [EvGet url])%list.

(** ** The entry point *)

(** What [parser.parse_args()] returned. *)
Record arguments : Type := Args { data_dir : string; args_model : string }.

(** How [main] ends: by returning, by [sys.exit], or by an exception that
    nothing catches. *)
Inductive termination : Type :=
  | Completed
  | SysExit (code : Z)
  | Uncaught (e : exn).

(** The list [websites] of [main]. *)
Definition main_websites : list string :=
  ["https://qiyanjun.github.io/2025Fall-UVA-CS-MachineLearningDeep/";
   "https://www.cs.virginia.edu/~up3f/cs4750/";
   "https://yumeng5.github.io/teaching/2025-fall-cs4770"].

(** [str(n)] for a length, and [s * n]. *)
Definition str_of_nat (n : nat) : string :=
  NilEmpty.string_of_uint (Nat.to_uint n).

Definition str_times (s : string) (n : nat) : string :=
  String.concat "" (repeat s n).

(** The lines printed before the run starts. *)
Definition main_header (args : arguments) : list string :=
  ["Website Update Monitor";
   "Monitoring " +:+ str_of_nat (length main_websites) +:+ " website(s)...";
   "Using model: " +:+ args_model args;
   "Data directory: " +:+ data_dir args;
   str_times "-" 50].

(** [main], given the value of [GROQ_API_KEY] in the environment, the parsed
    arguments, and what constructing the [WebsiteMonitor] raises if it
    raises; [env] is the world of the monitor once constructed.  The result
    is the list of the lines printed and the way [main] ends. *)
Definition main {W} (env : World W) (groq_api_key : option string)
    (args : arguments) (init : option exn) (s : state W)
  : (list string * termination) * state W :=
  if decide (default "" groq_api_key = "") then
    (["Error: GROQ_API_KEY environment variable not set";
      "Get your API key from: https://console.groq.com/";
      "Then set it with: export GROQ_API_KEY=your_api_key_here"],
     SysExit 1, s)
  else
    match main_websites with
    | [] =>
        (["No websites configured for monitoring.";
          "Please edit the 'websites' list in the script to add URLs to monitor."],
         SysExit 1, s)
    | _ =>
        match init with
        | Some e => ([], Uncaught e, s)
        | None =>
            match monitor_websites env (args_model args) main_websites s with
            | (Returns results, s') =>
                ((main_header args
                  ++ [newline +:+ "Monitoring Results:"] ++ results)%list,
                 Completed, s')
            | (Raises e, s') =>
                if isinstance e KeyboardInterrupt then
                  ((main_header args
                    ++ [newline +:+ "Monitoring interrupted by user"])%list,
                   SysExit 1, s')
                else if isinstance e Exception then
                  ((main_header args ++ ["Error: " +:+ exn_str e])%list,
                   SysExit 1, s')
                else (main_header args, Uncaught e, s')
            end
        end
    end.

(** ** Further vocabulary *)

(** A text of white space only. *)
Fixpoint blank (s : string) : bool :=
  match s with
  | String c s' => Str.isspace c && blank s'
  | EmptyString => true
  end.

(** The text starts, or ends, with a white-space character. *)
Definition starts_space (s : string) : bool :=
  match s with
  | String c _ => Str.isspace c
  | EmptyString => false
  end.

Fixpoint ends_space (s : string) : bool :=
  match s with
  | String c EmptyString => Str.isspace c
  | String _ s' => ends_space s'
  | EmptyString => false
  end.

(** Every white-space character of the text is a space that no white space
    follows. *)
Fixpoint single_spaced (s : string) : bool :=
  match s with
  | String c s' =>
      (if Str.isspace c then Ascii.eqb c " " && negb (starts_space s') else true)
      && single_spaced s'
  | EmptyString => true
  end.

(** Whether a scan that has read [s] is inside a run of white space, when
    it was ([in_run]) or was not before [s]. *)
Fixpoint run_after (in_run : bool) (s : string) : bool :=
  match s with
  | String c s' => run_after (Str.isspace c) s'
  | EmptyString => in_run
  end.

(** The length of the user message around the title, the URL and the two
    texts it embeds. *)
Definition prompt_frame : Z :=
  Eval vm_compute in Str.len (comparison_prompt "" "" "" "").

(** The calls of a trace that touch the storage file. *)
Definition is_storage_event (ev : event) : bool :=
  match ev with
  | EvExists | EvLoad | EvSave _ => true
  | _ => false
  end.

Definition storage_events (tr : list event) : list event :=
  List.filter is_storage_event tr.

(** The two lines a turn can emit without consulting the oracle for a URL
    it has not seen. *)
Definition failed_line (url : string) : string :=
  "- " +:+ url +:+ ": Failed to fetch content".

Definition added_line (site_title : string) : string :=
  "- " +:+ site_title +:+ ": Added to monitoring (baseline established)".

(** ** Further example worlds *)

(** The pages when the user interrupts the first fetch. *)
Definition interrupted_world : World disk :=
  scripted (λ _, Raises (Exn KeyboardInterrupt "")) (Returns []) None.

(** The course pages over a storage file that cannot be written. *)
Definition read_only_world : World disk :=
  scripted course_pages (Returns [Some "ML course: the start moved to Tuesday"])
    (Some (Exn PermissionError "[Errno 13] Permission denied")).

(** The course pages over a storage whose write fails outside [IOError]. *)
Definition unencodable_world : World disk :=
  scripted course_pages (Returns [Some "ML course: the start moved to Tuesday"])
    (Some (Exn ValueError "surrogates not allowed")).

(** The course pages whose oracle replies with white space only. *)
Definition blank_reply_world : World disk :=
  scripted course_pages (Returns [Some "   "]) None.

(** The command line of a default invocation. *)
Definition default_args : arguments := Args "website_data" "llama3-8b-8192".

(** * Properties *)

(** ** Strings *)

Lemma string_length_append (a b : string) :
  String.length (a +:+ b) = (String.length a + String.length b)%nat.
Proof. induction a as [|c a IH]; simpl; [reflexivity | now rewrite IH]. Qed.

Lemma string_length_substring (n : nat) (t : string) :
  (n ≤ String.length t)%nat → String.length (substring 0 n t) = n.
Proof.
  revert t; induction n as [|n IH]; intros [|c t] Hn; simpl in *;
    try reflexivity; try lia.
  rewrite IH; lia.
Qed.

Lemma string_prefix_substring (n : nat) (t : string) :
  String.prefix (substring 0 n t) t = true.
Proof.
  revert t; induction n as [|n IH]; intros [|c t]; simpl; try reflexivity.
  destruct (ascii_dec c c) as [_|Hc]; [apply IH | congruence].
Qed.

Lemma len_slice_to (t : string) :
  max_chars < Str.len t → Str.len (Str.slice_to max_chars t) = max_chars.
Proof.
  unfold Str.len, Str.slice_to, max_chars. intros Hlen.
  rewrite string_length_substring; lia.
Qed.

Lemma len_append (a b : string) : Str.len (a +:+ b) = Str.len a + Str.len b.
Proof. unfold Str.len. rewrite string_length_append. lia. Qed.

Lemma truncated_short (t : string) : Str.len t ≤ max_chars → truncated t = t.
Proof.
  intros Hlen. unfold truncated.
  destruct (Z.gtb_spec (Str.len t) max_chars); [lia | reflexivity].
Qed.

Lemma truncated_long (t : string) :
  max_chars < Str.len t → truncated t = Str.slice_to max_chars t +:+ "...".
Proof.
  intros Hlen. unfold truncated.
  destruct (Z.gtb_spec (Str.len t) max_chars); [reflexivity | lia].
Qed.

(** Line breaks, tabs and runs of spaces all come out as single spaces, and
    the ends are trimmed; a text of white space only comes out empty. *)
Example normalized_text :
  Str.strip (Str.sub_spaces
               ("  Course   starts" +:+ newline +:+ "   Monday. " +:+ newline))
  = "Course starts Monday.".
Proof. reflexivity. Qed.

Example normalized_blank :
  Str.strip (Str.sub_spaces ("   " +:+ newline +:+ " ")) = "".
Proof. reflexivity. Qed.

(** ** Running the monad *)

Ltac run_monad :=
  unfold mbind, mret, M_bind, M_ret, try_except, raise, call_total, call.

Section Runs.

Context {W : Type}.
Variable env : World W.
Variable model : string.

(** [compare_with_ai] is one oracle call, on the two truncated texts,
    followed by [summary_of]. *)
Lemma compare_with_ai_run (url old_content new_content site_title : string)
    (s : state W) :
  let messages := oracle_messages url site_title old_content new_content in
  compare_with_ai env model url old_content new_content site_title s =
  (summary_of site_title (oracle_reply env model messages s),
   after_oracle env model messages s).
Proof.
  unfold compare_with_ai, chat_create, first_choice, content_strip,
    oracle_messages, oracle_reply, after_oracle.
  run_monad.
  destruct (chat_completions_create _ _ _ _ _) as [[choices|e] w']; simpl.
  - destruct choices as [|[text|] rest]; simpl; reflexivity.
  - destruct (isinstance e Exception); reflexivity.
Qed.

(** [get_website_content] is one fetch followed by [extracted]. *)
Lemma get_website_content_run (url : string) (s : state W) :
  get_website_content env url s =
  (extracted (fst (requests_get env url (world s))), after_fetch env url s).
Proof.
  unfold get_website_content, http_fetch, extracted, after_fetch.
  run_monad.
  destruct (requests_get env url (world s)) as [[soup|e] w']; simpl.
  - reflexivity.
  - destruct (isinstance e RequestException); [reflexivity|].
    destruct (isinstance e Exception); reflexivity.
Qed.

(** The four ways one turn of the loop can go, given what the extraction
    returned. *)
Lemma process_url_failed (url site_title : string)
    (stored_data : store) (results : list string)
    (s s1 : state W) :
  get_website_content env url s = (Returns ("", site_title), s1) →
  process_url env model url stored_data results s =
  (Returns (stored_data,
            results ++ ["- " +:+ url +:+ ": Failed to fetch content"])%list, s1).
Proof.
  intros Hget. unfold process_url. run_monad. rewrite Hget. reflexivity.
Qed.

Lemma process_url_new (url content site_title : string)
    (stored_data : store) (results : list string)
    (s s1 : state W) :
  get_website_content env url s = (Returns (content, site_title), s1) →
  content ≠ "" →
  stored_data !! url = None →
  process_url env model url stored_data results s =
  (Returns
     (<[url := baseline_entry content (calculate_content_hash env content)
                 site_title (clock_reading env s1)
                 (clock_reading env (after_clock env s1))]> stored_data,
      results ++ ["- " +:+ site_title
                  +:+ ": Added to monitoring (baseline established)"])%list,
   after_sleep env 1 (after_clock env (after_clock env s1))).
Proof.
  intros Hget Hne Hnew. unfold process_url, now_isoformat, sleep. run_monad.
  rewrite Hget. simpl. destruct (decide (content = "")) as [|_]; [done|].
  rewrite Hnew. simpl.
  unfold after_sleep, after_clock, clock_reading, baseline_entry. simpl.
  destruct (datetime_now env (world s1)) as [t1 w1]. simpl.
  destruct (datetime_now env w1) as [t2 w2]. simpl.
  rewrite <- !app_assoc. reflexivity.
Qed.

Lemma process_url_unchanged (url content site_title : string)
    (stored_data : store) (results : list string)
    (entry : site) (s s1 : state W) :
  get_website_content env url s = (Returns (content, site_title), s1) →
  content ≠ "" →
  stored_data !! url = Some entry →
  entry !! "hash" = Some (calculate_content_hash env content) →
  process_url env model url stored_data results s =
  (Returns (stored_data,
            results ++ ["- " +:+ site_title +:+ ": No updates detected"])%list,
   after_sleep env 1 s1).
Proof.
  intros Hget Hne Hold Hhash. unfold process_url, sleep. run_monad.
  rewrite Hget. simpl. destruct (decide (content = "")) as [|_]; [done|].
  rewrite Hold. simpl. rewrite Hhash.
  destruct (decide _) as [_|Hd]; [reflexivity | done].
Qed.

Lemma process_url_changed (url content site_title : string)
    (stored_data : store) (results : list string)
    (entry : site) (s s1 : state W) :
  let messages :=
    oracle_messages url site_title (default "" (entry !! "content")) content in
  let s2 := after_oracle env model messages s1 in
  get_website_content env url s = (Returns (content, site_title), s1) →
  content ≠ "" →
  stored_data !! url = Some entry →
  entry !! "hash" ≠ Some (calculate_content_hash env content) →
  process_url env model url stored_data results s =
  match summary_of site_title (oracle_reply env model messages s1) with
  | Returns change_summary =>
      (Returns
         (<[url := dict_update entry
                     (changed_fields content (calculate_content_hash env content)
                        site_title (clock_reading env s2))]> stored_data,
          results ++ [change_summary])%list,
       after_sleep env 1 (after_clock env s2))
  | Raises e => (Raises e, s2)
  end.
Proof.
  intros messages s2 Hget Hne Hold Hhash. unfold process_url.
  unfold mbind at 1. unfold M_bind at 1. rewrite Hget. simpl.
  destruct (decide (content = "")) as [|_]; [done|].
  rewrite Hold.
  destruct (decide (Some (calculate_content_hash env content) = entry !! "hash"))
    as [Heq|_]; [by rewrite Heq in Hhash|].
  unfold mbind at 1. unfold M_bind at 1.
  unfold mbind at 1. unfold M_bind at 1.
  rewrite compare_with_ai_run. fold messages. fold s2.
  destruct (summary_of site_title (oracle_reply env model messages s1))
    as [change_summary|e]; [|reflexivity].
  unfold now_isoformat, sleep. run_monad.
  unfold after_sleep, after_clock, clock_reading, changed_fields.
  destruct (datetime_now env (world s2)) as [t1 w1]. simpl.
  rewrite <- !app_assoc. reflexivity.
Qed.

End Runs.

(** ** The oracle client *)

(** C3, as amended: [compare_with_ai] makes one oracle call whose user
    message is built from the two texts, each truncated on its own.  A text
    of at most [max_chars] characters is submitted unchanged; a longer one
    is cut to its first [max_chars] characters followed by the three
    characters of the ellipsis marker, so that what is submitted has
    [max_chars + 3] characters: the bound is the budget plus the marker. *)
Theorem compare_with_ai_truncates {W} (env : World W)
    (model url old_content new_content site_title : string) (s : state W) :
  trace (snd (compare_with_ai env model url old_content new_content site_title s))
  = (trace s ++
     [EvOracle model
        [("system", system_message);
         ("user", comparison_prompt url site_title
                    (truncated old_content) (truncated new_content))] 200])%list
  ∧ ∀ text : string,
      (Str.len text ≤ max_chars ∧ truncated text = text)
      ∨ (max_chars < Str.len text
         ∧ truncated text = Str.slice_to max_chars text +:+ "..."
         ∧ Str.startswith (Str.slice_to max_chars text) text = true
         ∧ Str.len (Str.slice_to max_chars text) = max_chars
         ∧ Str.len (truncated text) = max_chars + 3).
Proof.
  split.
  - pose proof (compare_with_ai_run env model url old_content new_content
                  site_title s) as Hrun.
    simpl in Hrun. rewrite Hrun. reflexivity.
  - intros text. destruct (Z_le_gt_dec (Str.len text) max_chars) as [Hle|Hgt].
    + left. split; [exact Hle | exact (truncated_short text Hle)].
    + right. assert (Hlt : max_chars < Str.len text) by lia.
      repeat split.
      * exact Hlt.
      * exact (truncated_long text Hlt).
      * apply string_prefix_substring.
      * exact (len_slice_to text Hlt).
      * rewrite (truncated_long text Hlt), len_append, (len_slice_to text Hlt).
        reflexivity.
Qed.

(** C3 as stated fails: a text of 8001 characters is submitted as 8003
    characters, more than the budget of 8000. *)
Lemma truncated_text_exceeds_budget :
  Str.len long_text = 8001
  ∧ truncated long_text = Str.slice_to max_chars long_text +:+ "..."
  ∧ Str.len (truncated long_text) = 8003
  ∧ ¬ (Str.len (truncated long_text) ≤ max_chars).
Proof.
  assert (Hlen : Str.len long_text = 8001) by (vm_compute; reflexivity).
  assert (Hlt : max_chars < Str.len long_text) by (rewrite Hlen; reflexivity).
  assert (Hcut : Str.len (truncated long_text) = 8003).
  { rewrite (truncated_long long_text Hlt), len_append, (len_slice_to long_text Hlt).
    reflexivity. }
  split; [exact Hlen|]. split; [exact (truncated_long long_text Hlt)|].
  split; [exact Hcut|]. rewrite Hcut. unfold max_chars. lia.
Qed.

(** C4: whatever the oracle replies, and whenever the oracle call fails with
    an exception, [compare_with_ai] returns normally a line that starts with
    the bullet marker: the trimmed reply when it already starts with one,
    the trimmed reply with a bullet prepended otherwise, and on a failure
    (also an empty list of choices or a reply without content) a bullet with
    the site title and the description of the error. *)
Theorem compare_with_ai_returns_bullet {W} (env : World W)
    (model url old_content new_content site_title : string) (s : state W) :
  (∀ e,
     oracle_reply env model
       (oracle_messages url site_title old_content new_content) s = Raises e →
     isinstance e Exception = true) →
  ∃ line,
    compare_with_ai env model url old_content new_content site_title s
    = (Returns line,
       after_oracle env model
         (oracle_messages url site_title old_content new_content) s)
    ∧ Str.startswith "-" line = true
    ∧ match oracle_reply env model
              (oracle_messages url site_title old_content new_content) s with
      | Returns (Some text :: _) =>
          line = if Str.startswith "-" (Str.strip text)
                 then Str.strip text
                 else "- " +:+ Str.strip text
      | Returns (None :: _) =>
          line = "- " +:+ site_title +:+ ": Error analyzing changes - "
                 +:+ "'NoneType' object has no attribute 'strip'"
      | Returns [] =>
          line = "- " +:+ site_title +:+ ": Error analyzing changes - "
                 +:+ "list index out of range"
      | Raises e =>
          line = "- " +:+ site_title +:+ ": Error analyzing changes - "
                 +:+ exn_str e
      end.
Proof.
  intros Hexn.
  pose proof (compare_with_ai_run env model url old_content new_content
                site_title s) as Hrun.
  simpl in Hrun. rewrite Hrun. clear Hrun.
  destruct (oracle_reply env model _ s) as [[|[text|] rest]|e] eqn:Hreply; simpl.
  - eexists; repeat split; reflexivity.
  - destruct (Str.startswith "-" (Str.strip text)) eqn:Hdash.
    + eexists; repeat split; [exact Hdash].
    + eexists; repeat split; reflexivity.
  - eexists; repeat split; reflexivity.
  - rewrite (Hexn e eq_refl). eexists; repeat split; reflexivity.
Qed.

Lemma compare_with_ai_returns_bullet_witness :
  ∃ line,
    compare_with_ai oracle_down_world "llama3-8b-8192" ml_url
      "Course starts Monday." "Course starts Tuesday. New TA added."
      "ML course" (later_run old_ml_entry)
    = (Returns line,
       after_oracle oracle_down_world "llama3-8b-8192"
         (oracle_messages ml_url "ML course" "Course starts Monday."
            "Course starts Tuesday. New TA added.")
         (later_run old_ml_entry))
    ∧ Str.startswith "-" line = true
    ∧ line = "- ML course: Error analyzing changes - Request timed out.".
Proof.
  apply (compare_with_ai_returns_bullet oracle_down_world "llama3-8b-8192" ml_url
           "Course starts Monday." "Course starts Tuesday. New TA added."
           "ML course" (later_run old_ml_entry)).
  intros e He. injection He as <-. reflexivity.
Defined.

(** ** The loop *)

Section Loop.

Context {W : Type}.
Variable env : World W.
Variable model : string.

Lemma fetched_urls_app (tr tr' : list event) :
  fetched_urls (tr ++ tr') = (fetched_urls tr ++ fetched_urls tr')%list.
Proof. unfold fetched_urls. apply omap_app. Qed.

Lemma oracle_calls_app (tr tr' : list event) :
  oracle_calls (tr ++ tr') = (oracle_calls tr ++ oracle_calls tr')%list.
Proof. unfold oracle_calls. apply List.filter_app. Qed.

(** A fetch that fails with an exception, or that is served, makes
    [get_website_content] return. *)
Lemma get_website_content_returns (url : string) (s : state W) :
  fetch_failures_are_exceptions env →
  ∃ content site_title,
    get_website_content env url s
    = (Returns (content, site_title), after_fetch env url s).
Proof.
  intros Hfetch. rewrite get_website_content_run.
  destruct (requests_get env url (world s)) as [[soup|e] w'] eqn:Hget; simpl.
  - eauto.
  - rewrite (Hfetch _ _ _ _ Hget).
    destruct (isinstance e RequestException); eauto.
Qed.

(** An oracle call that fails with an exception, or that replies, makes
    [compare_with_ai] return a bullet. *)
Lemma summary_of_returns (site_title : string)
    (messages : list (string * string)) (s : state W) :
  oracle_failures_are_exceptions env →
  ∃ line,
    summary_of site_title (oracle_reply env model messages s) = Returns line
    ∧ Str.startswith "-" line = true.
Proof.
  intros Horacle. unfold oracle_reply.
  destruct (chat_completions_create env model messages 200 (world s))
    as [[[|[text|] rest]|e] w'] eqn:Hcall; simpl.
  - eexists; split; reflexivity.
  - destruct (Str.startswith "-" (Str.strip text)) eqn:Hdash;
      eexists; (split; [reflexivity|]); [exact Hdash | reflexivity].
  - eexists; split; reflexivity.
  - rewrite (Horacle _ _ _ _ _ _ Hcall). eexists; split; reflexivity.
Qed.

Lemma changed_entry_consistent (entry : site)
    (content site_title last_updated : string) :
  hash_consistent env
    (dict_update entry
       (changed_fields content (calculate_content_hash env content)
          site_title last_updated)).
Proof.
  exists content. unfold dict_update, changed_fields.
  split; apply lookup_union_Some_l; reflexivity.
Qed.

Lemma baseline_entry_consistent (content site_title last_updated first_seen : string) :
  hash_consistent env
    (baseline_entry content (calculate_content_hash env content)
       site_title last_updated first_seen).
Proof. exists content. split; reflexivity. Qed.

(** One turn of the loop, in a world whose failures are exceptions: it
    returns, adds one bullet, fetches the URL once, and leaves the store as
    it was or writes one consistent record for the URL. *)
Lemma process_url_total (url : string)
    (stored_data : store) (results : list string)
    (s : state W) :
  fetch_failures_are_exceptions env →
  oracle_failures_are_exceptions env →
  ∃ stored_data' line s',
    process_url env model url stored_data results s
    = (Returns (stored_data', (results ++ [line])%list), s')
    ∧ Str.startswith "-" line = true
    ∧ fetched_urls (trace s') = (fetched_urls (trace s) ++ [url])%list
    ∧ (stored_data' = stored_data
       ∨ ∃ entry, stored_data' = <[url := entry]> stored_data
                  ∧ hash_consistent env entry).
Proof.
  intros Hfetch Horacle.
  destruct (get_website_content_returns url s Hfetch)
    as (content & site_title & Hget).
  assert (Hurls : fetched_urls (trace (after_fetch env url s))
                  = (fetched_urls (trace s) ++ [url])%list).
  { simpl. rewrite fetched_urls_app. reflexivity. }
  destruct (decide (content = "")) as [->|Hne].
  { rewrite (process_url_failed env model url site_title _ _ _ _ Hget).
    do 3 eexists. split; [reflexivity|]. split; [reflexivity|].
    split; [exact Hurls | left; reflexivity]. }
  destruct (stored_data !! url) as [entry|] eqn:Hold.
  - destruct (decide (entry !! "hash" = Some (calculate_content_hash env content)))
      as [Hsame|Hdiff].
    + rewrite (process_url_unchanged env model url content site_title _ _ entry
                 _ _ Hget Hne Hold Hsame).
      do 3 eexists. split; [reflexivity|]. split; [reflexivity|].
      split; [|left; reflexivity].
      simpl. rewrite fetched_urls_app, fetched_urls_app. simpl.
      rewrite app_nil_r. reflexivity.
    + pose proof (process_url_changed env model url content site_title
                    stored_data results entry s _ Hget Hne Hold Hdiff) as Hrun.
      simpl in Hrun. rewrite Hrun. clear Hrun.
      destruct (summary_of_returns site_title
                  (oracle_messages url site_title
                     (default "" (entry !! "content")) content)
                  (after_fetch env url s) Horacle) as (line & -> & Hdash).
      do 3 eexists. split; [reflexivity|]. split; [exact Hdash|].
      split; [|right; eexists; split;
               [reflexivity | apply changed_entry_consistent]].
      simpl. rewrite !fetched_urls_app. simpl. rewrite !app_nil_r. reflexivity.
  - rewrite (process_url_new env model url content site_title _ _ _ _
               Hget Hne Hold).
    do 3 eexists. split; [reflexivity|]. split; [reflexivity|].
    split; [|right; eexists; split;
             [reflexivity | apply baseline_entry_consistent]].
    simpl. rewrite !fetched_urls_app. simpl. rewrite !app_nil_r. reflexivity.
Qed.

(** The whole loop, by induction on the list of URLs. *)
Lemma for_each_url_total (websites : list string) :
  fetch_failures_are_exceptions env →
  oracle_failures_are_exceptions env →
  ∀ (stored_data : store) (results : list string)
    (s : state W),
  ∃ stored_data' lines s',
    for_each_url env model websites stored_data results s
    = (Returns (stored_data', (results ++ lines)%list), s')
    ∧ Forall2 (λ _ line, Str.startswith "-" line = true) websites lines
    ∧ fetched_urls (trace s') = (fetched_urls (trace s) ++ websites)%list
    ∧ ∀ u, stored_data' !! u = stored_data !! u
           ∨ ∃ entry, stored_data' !! u = Some entry
                      ∧ hash_consistent env entry.
Proof.
  intros Hfetch Horacle.
  induction websites as [|url rest IH]; intros stored_data results s.
  - exists stored_data, [], s. simpl. rewrite !app_nil_r.
    repeat split; [constructor | by left].
  - destruct (process_url_total url stored_data results s Hfetch Horacle)
      as (sd1 & line & s1 & Hstep & Hdash & Hurls1 & Hstore1).
    destruct (IH sd1 (results ++ [line])%list s1)
      as (sd2 & lines & s2 & Hrest & Hall & Hurls2 & Hstore2).
    exists sd2, (line :: lines), s2.
    split.
    { simpl. unfold mbind at 1. unfold M_bind at 1. rewrite Hstep.
      rewrite Hrest, <- app_assoc. reflexivity. }
    split; [constructor; assumption|].
    split; [rewrite Hurls2, Hurls1, <- app_assoc; reflexivity|].
    intros u. destruct (Hstore2 u) as [Hsame2|Hnew2]; [|right; exact Hnew2].
    rewrite Hsame2.
    destruct Hstore1 as [->|(entry & -> & Hcons)]; [by left|].
    destruct (decide (url = u)) as [->|Hu].
    + right. exists entry. split; [apply lookup_insert_eq | exact Hcons].
    + left. by apply lookup_insert_ne.
Qed.


(** What a turn that returns can have done to the store, in any world. *)
Lemma process_url_store (url : string)
    (stored_data stored_data' : store)
    (results results' : list string) (s s' : state W) :
  process_url env model url stored_data results s
  = (Returns (stored_data', results'), s') →
  stored_data' = stored_data
  ∨ (stored_data !! url = None
     ∧ ∃ entry, stored_data' = <[url := entry]> stored_data)
  ∨ (∃ entry content hash title last_updated,
       stored_data !! url = Some entry
       ∧ stored_data'
         = <[url := dict_update entry
                      (changed_fields content hash title last_updated)]>
             stored_data).
Proof.
  intros Hrun.
  destruct (get_website_content env url s) as [[[content site_title]|e] s1]
    eqn:Hget.
  2: { unfold process_url, mbind, M_bind in Hrun. rewrite Hget in Hrun.
       discriminate Hrun. }
  destruct (decide (content = "")) as [->|Hne].
  { rewrite (process_url_failed env model url site_title _ _ _ _ Hget) in Hrun.
    left. congruence. }
  destruct (stored_data !! url) as [entry|] eqn:Hold.
  - destruct (decide (entry !! "hash" = Some (calculate_content_hash env content)))
      as [Hsame|Hdiff].
    + rewrite (process_url_unchanged env model url content site_title _ _ entry
                 _ _ Hget Hne Hold Hsame) in Hrun.
      left. congruence.
    + pose proof (process_url_changed env model url content site_title
                    stored_data results entry s _ Hget Hne Hold Hdiff) as Hstep.
      simpl in Hstep. rewrite Hstep in Hrun. clear Hstep.
      destruct (summary_of _ _) as [line|e]; [|discriminate Hrun].
      right. right. injection Hrun as <- _ _. eauto 10.
  - rewrite (process_url_new env model url content site_title _ _ _ _
               Hget Hne Hold) in Hrun.
    right. left. injection Hrun as <- _ _. eauto.
Qed.

(** [first_seen] is written once: whatever the loop does, the record of a
    URL that was in the store is still there with the [first_seen] it had. *)
Lemma for_each_url_keeps_first_seen (websites : list string) :
  ∀ (stored_data stored_data' : store)
    (results results' : list string) (s s' : state W),
    for_each_url env model websites stored_data results s
    = (Returns (stored_data', results'), s') →
    ∀ url entry,
      stored_data !! url = Some entry →
      ∃ entry', stored_data' !! url = Some entry'
                ∧ entry' !! "first_seen" = entry !! "first_seen".
Proof.
  induction websites as [|first rest IH];
    intros stored_data stored_data' results results' s s' Hrun url entry Hentry.
  - injection Hrun as <- _ _. eauto.
  - simpl in Hrun. unfold mbind at 1 in Hrun. unfold M_bind at 1 in Hrun.
    destruct (process_url env model first stored_data results s)
      as [[[sd1 rs1]|e] s1] eqn:Hstep; [|discriminate Hrun].
    assert (Hkept : ∃ entry1, sd1 !! url = Some entry1
                     ∧ entry1 !! "first_seen" = entry !! "first_seen").
    { destruct (process_url_store _ _ _ _ _ _ _ Hstep)
        as [->|[(Hnew & new & ->)|(old & c & h & t & l & Hold & ->)]].
      - eauto.
      - exists entry. split; [|reflexivity].
        rewrite lookup_insert_ne; [exact Hentry | congruence].
      - destruct (decide (first = url)) as [->|Hother].
        + rewrite Hold in Hentry. injection Hentry as ->.
          eexists. split; [apply lookup_insert_eq|].
          apply lookup_union_r. reflexivity.
        + exists entry. split; [|reflexivity].
          rewrite lookup_insert_ne; [exact Hentry | exact Hother]. }
    destruct Hkept as (entry1 & Hentry1 & Hfirst1).
    destruct (IH _ _ _ _ _ _ Hrun url entry1 Hentry1) as (entry' & He' & Hf').
    exists entry'. split; [exact He' | congruence].
Qed.

End Loop.

(** ** The state store *)

Section Storage.

Context {W : Type}.
Variable env : World W.

(** [load_stored_data] on a missing file, on a file whose loading raises a
    [JSONDecodeError] or an [IOError], and on a file that loads. *)
Lemma load_stored_data_missing (s : state W) :
  fst (storage_file_exists env (world s)) = Returns false →
  fst (load_stored_data env s) = Returns ∅.
Proof.
  intros Hmissing. unfold load_stored_data, storage_exists. run_monad. simpl.
  destruct (storage_file_exists env (world s)) as [found w']. simpl in *.
  subst found. reflexivity.
Qed.

Lemma load_stored_data_handled (s : state W) (e : exn) :
  fst (storage_file_exists env (world s)) = Returns true →
  fst (json_load env (snd (storage_file_exists env (world s)))) = Raises e →
  isinstance e JSONDecodeError || isinstance e IOError = true →
  fst (load_stored_data env s) = Returns ∅.
Proof.
  intros Hfound Hraise Hclass.
  unfold load_stored_data, storage_exists, storage_read. run_monad. simpl.
  destruct (storage_file_exists env (world s)) as [found w']. simpl in *.
  subst found. simpl.
  destruct (json_load env w') as [r w'']. simpl in *. subst r.
  rewrite Hclass. reflexivity.
Qed.

Lemma load_stored_data_valid (s : state W) (data : store) :
  fst (storage_file_exists env (world s)) = Returns true →
  fst (json_load env (snd (storage_file_exists env (world s)))) = Returns data →
  fst (load_stored_data env s) = Returns data.
Proof.
  intros Hfound Hdata.
  unfold load_stored_data, storage_exists, storage_read. run_monad. simpl.
  destruct (storage_file_exists env (world s)) as [found w']. simpl in *.
  subst found. simpl.
  destruct (json_load env w') as [r w'']. simpl in *. subst r. reflexivity.
Qed.

(** The existence check is outside the [try]: what it raises leaves
    [load_stored_data], an [IOError] included. *)
Lemma load_stored_data_exists_raises (s : state W) (e : exn) :
  fst (storage_file_exists env (world s)) = Raises e →
  load_stored_data env s
  = (Raises e,
     State (snd (storage_file_exists env (world s))) (trace s ++ [EvExists])%list).
Proof.
  intros Hraise. unfold load_stored_data, storage_exists. run_monad.
  destruct (storage_file_exists env (world s)) as [found w']. simpl in *.
  subst found. reflexivity.
Qed.

(** [save_stored_data] attempts the write and returns when the write can
    only fail with an [IOError]. *)
Lemma save_stored_data_run (data : store)
    (s : state W) :
  write_failures_are_ioerrors env →
  save_stored_data env data s
  = (Returns tt,
     State (snd (json_dump env data (world s))) (trace s ++ [EvSave data])%list).
Proof.
  intros Hwrite. unfold save_stored_data, storage_write. run_monad.
  destruct (json_dump env data (world s)) as [[e|] w'] eqn:Hdump; simpl.
  - rewrite (Hwrite _ _ _ _ Hdump). reflexivity.
  - reflexivity.
Qed.

End Storage.

(** The example worlds meet the assumptions made on a world. *)
Lemma scripted_fetch_failures (pages : string → outcome page)
    (oracle : outcome (completion)) (dump : option exn) :
  (∀ url e, pages url = Raises e → isinstance e Exception = true) →
  fetch_failures_are_exceptions (scripted pages oracle dump).
Proof. intros Hpages url w e w' Hget. injection Hget as Hp _. eauto. Qed.

Lemma course_pages_failures (url : string) (e : exn) :
  course_pages url = Raises e → isinstance e Exception = true.
Proof.
  unfold course_pages. repeat case_decide; intros Hp; try discriminate.
  injection Hp as <-. reflexivity.
Qed.

Lemma course_world_fetch_failures : fetch_failures_are_exceptions course_world.
Proof. apply scripted_fetch_failures, course_pages_failures. Qed.

Lemma course_world_oracle_failures : oracle_failures_are_exceptions course_world.
Proof. intros model messages n w e w' Hcall. discriminate Hcall. Qed.

Lemma course_world_write_failures : write_failures_are_ioerrors course_world.
Proof. intros data w e w' Hdump. discriminate Hdump. Qed.



Lemma oracle_down_write_failures : write_failures_are_ioerrors oracle_down_world.
Proof. intros data w e w' Hdump. discriminate Hdump. Qed.

(** ** The orchestrator, one URL at a time *)

Lemma summary_of_total (site_title : string)
    (reply : outcome (completion)) :
  (∀ e, reply = Raises e → isinstance e Exception = true) →
  ∃ line, summary_of site_title reply = Returns line.
Proof.
  intros Hexn. destruct reply as [[|[text|] rest]|e]; simpl; eauto.
  rewrite (Hexn e eq_refl). eauto.
Qed.

Lemma changed_fields_other (key content hash title last_updated : string) :
  key ∉ ["content"; "hash"; "title"; "last_updated"] →
  changed_fields content hash title last_updated !! key = None.
Proof.
  intros Hkey. rewrite !not_elem_of_cons in Hkey.
  destruct Hkey as (H1 & H2 & H3 & H4 & _).
  unfold changed_fields. simpl.
  rewrite !lookup_insert_ne by congruence. apply lookup_empty.
Qed.

Lemma request_exception_is_exception (e : exn) :
  isinstance e RequestException = true → isinstance e Exception = true.
Proof. destruct e as [[] description]; intros Hreq; done. Qed.

(** C10: when [get_website_content] returns the empty text, because the
    fetch or the processing raised or because the normalized text of the
    page is empty, the turn emits the failed-to-fetch line for the URL,
    makes no further call to the world, and returns the store it was given,
    whatever that store holds for the URL. *)
Theorem failed_fetch_leaves_store {W} (env : World W)
    (model url site_title : string) (s s1 : state W) :
  get_website_content env url s = (Returns ("", site_title), s1) →
  (∀ (stored_data : store) (results : list string),
     process_url env model url stored_data results s
     = (Returns (stored_data,
                 (results ++ ["- " +:+ url +:+ ": Failed to fetch content"])%list),
        s1))
  ∧ trace s1 = (trace s ++ [EvGet url])%list
  ∧ ((∃ e, fst (requests_get env url (world s)) = Raises e
           ∧ isinstance e Exception = true)
     ∨ (∃ soup, fst (requests_get env url (world s)) = Returns soup
                ∧ Str.strip (Str.sub_spaces (main_text soup)) = "")).
Proof.
  intros Hget. split; [|split].
  - intros stored_data results.
    exact (process_url_failed env model url site_title stored_data results
             s s1 Hget).
  - rewrite get_website_content_run in Hget. injection Hget as _ <-.
    reflexivity.
  - rewrite get_website_content_run in Hget. injection Hget as Hext _.
    destruct (fst (requests_get env url (world s))) as [soup|e]; simpl in Hext.
    + right. exists soup. split; [reflexivity|]. congruence.
    + left. exists e. split; [reflexivity|].
      destruct (isinstance e RequestException) eqn:Hreq.
      * exact (request_exception_is_exception e Hreq).
      * destruct (isinstance e Exception); [reflexivity | discriminate].
Qed.

Lemma failed_fetch_leaves_store_witness :
  (∀ (stored_data : store) (results : list string),
     process_url course_world "llama3-8b-8192" blank_url stored_data results
       (later_run old_ml_entry)
     = (Returns (stored_data,
                 (results
                  ++ ["- " +:+ blank_url +:+ ": Failed to fetch content"])%list),
        after_fetch course_world blank_url (later_run old_ml_entry)))
  ∧ trace (after_fetch course_world blank_url (later_run old_ml_entry))
    = (trace (later_run old_ml_entry) ++ [EvGet blank_url])%list
  ∧ ((∃ e, fst (requests_get course_world blank_url
                  (world (later_run old_ml_entry))) = Raises e
           ∧ isinstance e Exception = true)
     ∨ (∃ soup, fst (requests_get course_world blank_url
                       (world (later_run old_ml_entry))) = Returns soup
                ∧ Str.strip (Str.sub_spaces (main_text soup)) = "")).
Proof.
  apply (failed_fetch_leaves_store course_world "llama3-8b-8192" blank_url
           "No title" (later_run old_ml_entry)).
  reflexivity.
Defined.

(** C2: for a URL present in the store whose new fingerprint equals the
    stored one, the turn emits the no-updates bullet, calls the world only
    for the fetch and the pause (so the oracle is not called), and returns
    the store unchanged, [last_updated] included. *)
Theorem unchanged_url_keeps_store {W} (env : World W)
    (model url content site_title : string)
    (stored_data : store) (results : list string)
    (entry : site) (s s1 : state W) :
  get_website_content env url s = (Returns (content, site_title), s1) →
  content ≠ "" →
  stored_data !! url = Some entry →
  entry !! "hash" = Some (calculate_content_hash env content) →
  ∃ s',
    process_url env model url stored_data results s
    = (Returns (stored_data,
                (results ++ ["- " +:+ site_title +:+ ": No updates detected"])%list),
       s')
    ∧ trace s' = (trace s ++ [EvGet url; EvSleep 1])%list
    ∧ oracle_calls (trace s') = oracle_calls (trace s).
Proof.
  intros Hget Hne Hold Hsame. exists (after_sleep env 1 s1).
  split; [exact (process_url_unchanged env model url content site_title
                   stored_data results entry s s1 Hget Hne Hold Hsame)|].
  rewrite get_website_content_run in Hget. injection Hget as _ <-.
  simpl. rewrite <- app_assoc. split; [reflexivity|].
  rewrite oracle_calls_app. simpl. apply app_nil_r.
Qed.

Lemma unchanged_url_keeps_store_witness :
  ∃ s',
    process_url course_world "llama3-8b-8192" ml_url
      {[ml_url := same_ml_entry]} [] (later_run same_ml_entry)
    = (Returns ({[ml_url := same_ml_entry]},
                ([] ++ ["- " +:+ "ML course" +:+ ": No updates detected"])%list),
       s')
    ∧ trace s' = (trace (later_run same_ml_entry) ++ [EvGet ml_url; EvSleep 1])%list
    ∧ oracle_calls (trace s') = oracle_calls (trace (later_run same_ml_entry)).
Proof.
  apply (unchanged_url_keeps_store course_world "llama3-8b-8192" ml_url
           "Course starts Tuesday. New TA added." "ML course"
           {[ml_url := same_ml_entry]} [] same_ml_entry
           (later_run same_ml_entry)
           (after_fetch course_world ml_url (later_run same_ml_entry))).
  - reflexivity.
  - discriminate.
  - reflexivity.
  - reflexivity.
Defined.

(** C7: for a URL present in the store whose new fingerprint differs from
    the stored one, the turn calls the oracle client once, on the stored
    text and the fetched text, emits the line it returns, and replaces the
    record of the URL by one whose [content], [hash], [title] and
    [last_updated] are the new ones and whose every other key, [first_seen]
    among them, is as before. *)
Theorem changed_url_updates_record {W} (env : World W)
    (model url content site_title : string)
    (stored_data : store) (results : list string)
    (entry : site) (s s1 : state W) :
  get_website_content env url s = (Returns (content, site_title), s1) →
  content ≠ "" →
  stored_data !! url = Some entry →
  entry !! "hash" ≠ Some (calculate_content_hash env content) →
  (∀ e,
     oracle_reply env model
       (oracle_messages url site_title (default "" (entry !! "content")) content)
       s1 = Raises e →
     isinstance e Exception = true) →
  ∃ change_summary new_entry s2 s',
    compare_with_ai env model url (default "" (entry !! "content")) content
      site_title s1 = (Returns change_summary, s2)
    ∧ process_url env model url stored_data results s
      = (Returns (<[url := new_entry]> stored_data,
                  (results ++ [change_summary])%list), s')
    ∧ trace s'
      = (trace s ++
         [EvGet url;
          EvOracle model
            (oracle_messages url site_title (default "" (entry !! "content"))
               content) 200;
          EvNow; EvSleep 1])%list
    ∧ new_entry !! "content" = Some content
    ∧ new_entry !! "hash" = Some (calculate_content_hash env content)
    ∧ new_entry !! "title" = Some site_title
    ∧ new_entry !! "last_updated" = Some (clock_reading env s2)
    ∧ new_entry !! "first_seen" = entry !! "first_seen"
    ∧ ∀ key, key ∉ ["content"; "hash"; "title"; "last_updated"] →
             new_entry !! key = entry !! key.
Proof.
  intros Hget Hne Hold Hdiff Hexn.
  pose proof (process_url_changed env model url content site_title stored_data
                results entry s s1 Hget Hne Hold Hdiff) as Hrun.
  pose proof (compare_with_ai_run env model url
                (default "" (entry !! "content")) content site_title s1) as Hcmp.
  simpl in Hrun, Hcmp.
  destruct (summary_of_total site_title _ Hexn) as [line Hline].
  rewrite Hline in Hrun, Hcmp.
  eexists line, _, _, _. split; [exact Hcmp|]. split; [exact Hrun|].
  rewrite get_website_content_run in Hget. injection Hget as _ <-.
  split; [simpl; rewrite <- !app_assoc; reflexivity|].
  unfold dict_update.
  split; [apply lookup_union_Some_l; reflexivity|].
  split; [apply lookup_union_Some_l; reflexivity|].
  split; [apply lookup_union_Some_l; reflexivity|].
  split; [apply lookup_union_Some_l; reflexivity|].
  split.
  - apply lookup_union_r, changed_fields_other.
    rewrite !not_elem_of_cons. repeat split; try discriminate.
    apply not_elem_of_nil.
  - intros key Hkey. apply lookup_union_r, changed_fields_other, Hkey.
Qed.

Lemma changed_url_updates_record_witness :
  ∃ change_summary new_entry s2 s',
    compare_with_ai course_world "llama3-8b-8192" ml_url
      (default "" (old_ml_entry !! "content"))
      "Course starts Tuesday. New TA added." "ML course"
      (after_fetch course_world ml_url (later_run old_ml_entry))
    = (Returns change_summary, s2)
    ∧ process_url course_world "llama3-8b-8192" ml_url
        {[ml_url := old_ml_entry]} [] (later_run old_ml_entry)
      = (Returns (<[ml_url := new_entry]> {[ml_url := old_ml_entry]},
                  ([] ++ [change_summary])%list), s')
    ∧ trace s'
      = (trace (later_run old_ml_entry) ++
         [EvGet ml_url;
          EvOracle "llama3-8b-8192"
            (oracle_messages ml_url "ML course"
               (default "" (old_ml_entry !! "content"))
               "Course starts Tuesday. New TA added.") 200;
          EvNow; EvSleep 1])%list
    ∧ new_entry !! "content" = Some "Course starts Tuesday. New TA added."
    ∧ new_entry !! "hash"
      = Some (calculate_content_hash course_world
                "Course starts Tuesday. New TA added.")
    ∧ new_entry !! "title" = Some "ML course"
    ∧ new_entry !! "last_updated" = Some (clock_reading course_world s2)
    ∧ new_entry !! "first_seen" = old_ml_entry !! "first_seen"
    ∧ ∀ key, key ∉ ["content"; "hash"; "title"; "last_updated"] →
             new_entry !! key = old_ml_entry !! key.
Proof.
  apply (changed_url_updates_record course_world "llama3-8b-8192" ml_url
           "Course starts Tuesday. New TA added." "ML course"
           {[ml_url := old_ml_entry]} [] old_ml_entry
           (later_run old_ml_entry)
           (after_fetch course_world ml_url (later_run old_ml_entry))).
  - reflexivity.
  - discriminate.
  - reflexivity.
  - vm_compute. discriminate.
  - intros e He. vm_compute in He. discriminate He.
Defined.

(** C1, as amended: for a URL absent from the store whose fetch returns a
    non-empty text, the turn emits the added-to-monitoring bullet and adds
    to the store one record, for that URL, leaving every other record as it
    was.  The record holds the fetched text, its digest and the title;
    [last_updated] is the clock reading taken first and [first_seen] the
    clock reading taken next, so the two are equal whenever these two
    readings are. *)
Theorem new_url_creates_baseline {W} (env : World W)
    (model url content site_title : string)
    (stored_data : store) (results : list string)
    (s s1 : state W) :
  get_website_content env url s = (Returns (content, site_title), s1) →
  content ≠ "" →
  stored_data !! url = None →
  ∃ entry s',
    process_url env model url stored_data results s
    = (Returns (<[url := entry]> stored_data,
                (results ++ ["- " +:+ site_title
                             +:+ ": Added to monitoring (baseline established)"])%list),
       s')
    ∧ trace s' = (trace s ++ [EvGet url; EvNow; EvNow; EvSleep 1])%list
    ∧ size (<[url := entry]> stored_data) = S (size stored_data)
    ∧ (∀ other, other ≠ url →
         <[url := entry]> stored_data !! other = stored_data !! other)
    ∧ entry !! "content" = Some content
    ∧ entry !! "hash" = Some (calculate_content_hash env content)
    ∧ entry !! "title" = Some site_title
    ∧ entry !! "last_updated" = Some (clock_reading env s1)
    ∧ entry !! "first_seen" = Some (clock_reading env (after_clock env s1))
    ∧ (clock_reading env s1 = clock_reading env (after_clock env s1) →
       entry !! "first_seen" = entry !! "last_updated").
Proof.
  intros Hget Hne Hnew. eexists _, _.
  split; [exact (process_url_new env model url content site_title stored_data
                   results s s1 Hget Hne Hnew)|].
  rewrite get_website_content_run in Hget. injection Hget as _ <-.
  split; [simpl; rewrite <- !app_assoc; reflexivity|].
  split; [apply map_size_insert_None, Hnew|].
  split; [intros other Hother; apply lookup_insert_ne; congruence|].
  do 5 (split; [reflexivity|]).
  intros Hclock. unfold baseline_entry. simpl.
  rewrite lookup_insert_ne by discriminate.
  rewrite lookup_insert_ne by discriminate.
  rewrite lookup_insert_ne by discriminate.
  rewrite lookup_insert_ne by discriminate.
  rewrite lookup_insert_eq.
  rewrite lookup_insert_ne by discriminate.
  rewrite lookup_insert_ne by discriminate.
  rewrite lookup_insert_ne by discriminate.
  rewrite lookup_insert_eq. congruence.
Qed.

Lemma new_url_creates_baseline_witness :
  ∃ entry s',
    process_url course_world "llama3-8b-8192" ml_url ∅ [] first_run
    = (Returns (<[ml_url := entry]> ∅,
                ([] ++ ["- " +:+ "ML course"
                        +:+ ": Added to monitoring (baseline established)"])%list),
       s')
    ∧ trace s' = (trace first_run ++ [EvGet ml_url; EvNow; EvNow; EvSleep 1])%list
    ∧ size (<[ml_url := entry]> (∅ : store))
      = S (size (∅ : store))
    ∧ (∀ other, other ≠ ml_url →
         <[ml_url := entry]> (∅ : store) !! other
         = (∅ : store) !! other)
    ∧ entry !! "content" = Some "Course starts Tuesday. New TA added."
    ∧ entry !! "hash"
      = Some (calculate_content_hash course_world
                "Course starts Tuesday. New TA added.")
    ∧ entry !! "title" = Some "ML course"
    ∧ entry !! "last_updated"
      = Some (clock_reading course_world
                (after_fetch course_world ml_url first_run))
    ∧ entry !! "first_seen"
      = Some (clock_reading course_world
                (after_clock course_world
                   (after_fetch course_world ml_url first_run)))
    ∧ (clock_reading course_world (after_fetch course_world ml_url first_run)
       = clock_reading course_world
           (after_clock course_world
              (after_fetch course_world ml_url first_run)) →
       entry !! "first_seen" = entry !! "last_updated").
Proof.
  apply (new_url_creates_baseline course_world "llama3-8b-8192" ml_url
           "Course starts Tuesday. New TA added." "ML course" ∅ []
           first_run (after_fetch course_world ml_url first_run)).
  - reflexivity.
  - discriminate.
  - reflexivity.
Defined.

(** C1 as stated fails on a clock that moves between two readings: the URL
    is absent from the store and its fetch returns a non-empty text, the
    baseline record is created and the bullet emitted, but [last_updated]
    holds the first reading and [first_seen] the second, and they differ. *)
Lemma baseline_timestamps_differ :
  ∃ entry,
    (∅ : store) !! ml_url = None
    ∧ get_website_content course_world ml_url first_run
      = (Returns ("Course starts Tuesday. New TA added.", "ML course"),
         after_fetch course_world ml_url first_run)
    ∧ process_url course_world "llama3-8b-8192" ml_url ∅ [] first_run
      = (Returns ({[ml_url := entry]},
                  ["- ML course: Added to monitoring (baseline established)"]),
         State (Disk ["2025-09-01T10:00:02.500000"] false (Returns ∅))
               [EvGet ml_url; EvNow; EvNow; EvSleep 1])
    ∧ entry !! "last_updated" = Some "2025-09-01T10:00:00.000012"
    ∧ entry !! "first_seen" = Some "2025-09-01T10:00:00.000019"
    ∧ entry !! "first_seen" ≠ entry !! "last_updated".
Proof.
  exists (baseline_entry "Course starts Tuesday. New TA added."
            "md5:Course starts Tuesday. New TA added." "ML course"
            "2025-09-01T10:00:00.000012" "2025-09-01T10:00:00.000019").
  split; [reflexivity|]. split; [reflexivity|].
  split; [vm_compute; reflexivity|].
  split; [reflexivity|]. split; [reflexivity|].
  vm_compute. discriminate.
Qed.

(** ** The orchestrator, over the whole list *)

(** C5: in a world whose fetch and oracle failures are exceptions, the loop
    over any list of URLs returns, and every record of the store it returns
    is either the record the store held before or a record whose [hash] is
    the digest, computed at this observation, of its [content]: so is every
    record the loop wrote, at a baseline creation or at an update. *)
Theorem written_records_hash_consistent {W} (env : World W) (model : string)
    (websites : list string)
    (stored_data : store) (results : list string)
    (s : state W) :
  fetch_failures_are_exceptions env →
  oracle_failures_are_exceptions env →
  ∃ stored_data' results' s',
    for_each_url env model websites stored_data results s
    = (Returns (stored_data', results'), s')
    ∧ ∀ url,
        stored_data' !! url = stored_data !! url
        ∨ ∃ entry content,
            stored_data' !! url = Some entry
            ∧ entry !! "content" = Some content
            ∧ entry !! "hash" = Some (calculate_content_hash env content).
Proof.
  intros Hfetch Horacle.
  destruct (for_each_url_total env model websites Hfetch Horacle
              stored_data results s)
    as (sd' & lines & s' & Hrun & _ & _ & Hstore).
  exists sd', (results ++ lines)%list, s'. split; [exact Hrun|].
  intros url. destruct (Hstore url) as [Hsame|(entry & Hentry & content & Hc & Hh)].
  - left. exact Hsame.
  - right. exists entry, content. auto.
Qed.

Lemma written_records_hash_consistent_witness :
  ∃ stored_data' results' s',
    for_each_url course_world "llama3-8b-8192" [ml_url; blank_url; gone_url]
      {[ml_url := old_ml_entry]} [] (later_run old_ml_entry)
    = (Returns (stored_data', results'), s')
    ∧ ∀ url,
        stored_data' !! url
        = ({[ml_url := old_ml_entry]} : store) !! url
        ∨ ∃ entry content,
            stored_data' !! url = Some entry
            ∧ entry !! "content" = Some content
            ∧ entry !! "hash"
              = Some (calculate_content_hash course_world content).
Proof.
  apply (written_records_hash_consistent course_world "llama3-8b-8192"
           [ml_url; blank_url; gone_url] {[ml_url := old_ml_entry]} []
           (later_run old_ml_entry)).
  - exact course_world_fetch_failures.
  - exact course_world_oracle_failures.
Defined.





(** The run of the witness, computed: the URL that is gone and the blank
    page get their failed-to-fetch lines, the changed page gets the error
    line of the oracle that timed out, and the store is written last. *)
Example failure_isolation_run :
  ∃ saved,
    monitor_websites oracle_down_world "llama3-8b-8192"
      [gone_url; ml_url; blank_url] (later_run old_ml_entry)
    = (Returns ["- https://cs.example/gone: Failed to fetch content";
                "- ML course: Error analyzing changes - Request timed out.";
                "- https://cs.example/blank: Failed to fetch content"],
       State (Disk (tl course_clock) true (Returns saved))
             [EvExists; EvLoad; EvGet gone_url; EvGet ml_url;
              EvOracle "llama3-8b-8192"
                (oracle_messages ml_url "ML course" "Course starts Monday."
                   "Course starts Tuesday. New TA added.") 200;
              EvNow; EvSleep 1; EvGet blank_url; EvSave saved])
    ∧ (saved !! ml_url ≫= (.!! "content"))
      = Some "Course starts Tuesday. New TA added.".
Proof. eexists. split; vm_compute; reflexivity. Qed.

(** C8 at a list of two URLs whose first fetch fails: the run makes no
    pause between the fetch of the first URL and the fetch of the second;
    its only pause follows the second URL. *)
Theorem failed_fetch_skips_pause :
  ∃ saved,
    monitor_websites course_world "llama3-8b-8192" [gone_url; ml_url] first_run
    = (Returns ["- https://cs.example/gone: Failed to fetch content";
                "- ML course: Added to monitoring (baseline established)"],
       State (Disk ["2025-09-01T10:00:02.500000"] true (Returns saved))
             [EvExists; EvGet gone_url; EvGet ml_url; EvNow; EvNow; EvSleep 1;
              EvSave saved]).
Proof. eexists. vm_compute. reflexivity. Qed.

(** C9 at a storage file whose bytes are not valid UTF-8: reading it raises
    a [UnicodeDecodeError], which is neither a [JSONDecodeError] nor an
    [IOError]; [load_stored_data] raises it, and so does
    [monitor_websites], before any URL is fetched. *)
Theorem load_stored_data_raises_on_garbled_file :
  isinstance (Exn UnicodeDecodeError "") JSONDecodeError = false
  ∧ isinstance (Exn UnicodeDecodeError "") IOError = false
  ∧ load_stored_data course_world garbled_run
    = (Raises (Exn UnicodeDecodeError
         "'utf-8' codec can't decode byte 0xff in position 0: invalid start byte"),
       State (world garbled_run) [EvExists; EvLoad])
  ∧ monitor_websites course_world "llama3-8b-8192" [ml_url] garbled_run
    = (Raises (Exn UnicodeDecodeError
         "'utf-8' codec can't decode byte 0xff in position 0: invalid start byte"),
       State (world garbled_run) [EvExists; EvLoad]).
Proof. repeat split. Qed.

(** * Further properties *)

(** ** Normalization of the extracted text *)

Lemma append_cons (c : ascii) (a b : string) :
  String c a +:+ b = String c (a +:+ b).
Proof. reflexivity. Qed.

Lemma append_empty_l (b : string) : "" +:+ b = b.
Proof. reflexivity. Qed.

Lemma append_assoc (a b c : string) : (a +:+ b) +:+ c = a +:+ (b +:+ c).
Proof.
  induction a as [|x a IH]; [reflexivity|].
  rewrite !append_cons, IH. reflexivity.
Qed.

Lemma sub_spaces_from_app (in_run : bool) (a b : string) :
  Str.sub_spaces_from in_run (a +:+ b)
  = Str.sub_spaces_from in_run a +:+ Str.sub_spaces_from (run_after in_run a) b.
Proof.
  revert in_run. induction a as [|c a IH]; intros in_run; [reflexivity|].
  rewrite append_cons. simpl.
  destruct (Str.isspace c); [destruct in_run|]; rewrite IH; reflexivity.
Qed.

Lemma sub_spaces_from_blank (w : string) :
  blank w = true → Str.sub_spaces_from true w = "".
Proof.
  induction w as [|c w IH]; simpl; [reflexivity|].
  intros [Hc Hw]%andb_true_iff. rewrite Hc. auto.
Qed.

Lemma sub_spaces_from_blank_run (in_run : bool) (w : string) :
  blank w = true → w ≠ "" →
  Str.sub_spaces_from in_run w = (if in_run then "" else " ")
  ∧ run_after in_run w = true.
Proof.
  destruct w as [|c w]; [done|]. simpl.
  intros [Hc Hw]%andb_true_iff _. rewrite Hc, (sub_spaces_from_blank w Hw).
  split; [destruct in_run; reflexivity|].
  clear Hc. revert c. induction w as [|d w IH]; intros c; simpl.
  - reflexivity.
  - apply andb_true_iff in Hw as [Hd Hw]. rewrite Hd. apply (IH Hw d).
Qed.

Lemma lstrip_blank (w : string) : blank w = true → Str.lstrip w = "".
Proof.
  induction w as [|c w IH]; simpl; [reflexivity|].
  intros [Hc Hw]%andb_true_iff. rewrite Hc. auto.
Qed.

Lemma rstrip_blank (w : string) : blank w = true → Str.rstrip w = "".
Proof.
  induction w as [|c w IH]; simpl; [reflexivity|].
  intros [Hc Hw]%andb_true_iff. rewrite (IH Hw), Hc. reflexivity.
Qed.

Lemma strip_blank (w : string) : blank w = true → Str.strip w = "".
Proof. intros Hw. unfold Str.strip. rewrite (lstrip_blank w Hw). reflexivity. Qed.

Lemma rstrip_app_blank (x w : string) :
  blank w = true → Str.rstrip (x +:+ w) = Str.rstrip x.
Proof.
  intros Hw. induction x as [|c x IH].
  - rewrite append_empty_l. apply rstrip_blank, Hw.
  - rewrite append_cons. simpl. rewrite IH. reflexivity.
Qed.

Lemma strip_app_blank (x w : string) :
  blank w = true → Str.strip (x +:+ w) = Str.strip x.
Proof.
  intros Hw. unfold Str.strip. induction x as [|c x IH].
  - rewrite append_empty_l, (lstrip_blank w Hw). reflexivity.
  - rewrite append_cons. simpl. destruct (Str.isspace c); [exact IH|].
    rewrite <- append_cons. apply rstrip_app_blank, Hw.
Qed.

Lemma lstrip_sub_spaces_from (in_run : bool) (s : string) :
  Str.lstrip (Str.sub_spaces_from in_run s)
  = Str.lstrip (Str.sub_spaces_from true s).
Proof.
  destruct s as [|c s]; [reflexivity|]. simpl.
  destruct (Str.isspace c) eqn:Hc; [|reflexivity].
  destruct in_run; reflexivity.
Qed.

(** X1: a run of white space inside the text can be replaced by any other
    run of white space without changing the normalized text. *)
Theorem normalization_ignores_inner_spacing (a b w1 w2 : string) :
  blank w1 = true → w1 ≠ "" →
  blank w2 = true → w2 ≠ "" →
  Str.strip (Str.sub_spaces (a +:+ w1 +:+ b))
  = Str.strip (Str.sub_spaces (a +:+ w2 +:+ b)).
Proof.
  intros Hw1 Hn1 Hw2 Hn2. unfold Str.sub_spaces.
  rewrite !sub_spaces_from_app.
  destruct (sub_spaces_from_blank_run (run_after false a) w1 Hw1 Hn1) as [-> ->].
  destruct (sub_spaces_from_blank_run (run_after false a) w2 Hw2 Hn2) as [-> ->].
  reflexivity.
Qed.

Lemma normalization_ignores_inner_spacing_witness :
  Str.strip (Str.sub_spaces ("Course" +:+ (" " +:+ newline +:+ "  ") +:+ "starts"))
  = Str.strip (Str.sub_spaces ("Course" +:+ " " +:+ "starts")).
Proof.
  apply (normalization_ignores_inner_spacing "Course" "starts"
           (" " +:+ newline +:+ "  ") " ").
  - reflexivity.
  - discriminate.
  - reflexivity.
  - discriminate.
Defined.

(** X2: white space before and after the text does not change the
    normalized text. *)
Theorem normalization_ignores_outer_spacing (w text w' : string) :
  blank w = true → blank w' = true →
  Str.strip (Str.sub_spaces (w +:+ text +:+ w'))
  = Str.strip (Str.sub_spaces text).
Proof.
  intros Hw Hw'.
  assert (Htail : ∀ x, Str.strip (Str.sub_spaces (x +:+ w'))
                       = Str.strip (Str.sub_spaces x)).
  { intros x. unfold Str.sub_spaces. rewrite sub_spaces_from_app.
    apply strip_app_blank.
    destruct w' as [|c w'']; [reflexivity|].
    destruct (sub_spaces_from_blank_run (run_after false x) (String c w'') Hw')
      as [-> _]; [discriminate|].
    destruct (run_after false x); reflexivity. }
  rewrite <- append_assoc, Htail.
  destruct w as [|c w0]; [reflexivity|].
  unfold Str.sub_spaces, Str.strip. rewrite sub_spaces_from_app.
  destruct (sub_spaces_from_blank_run false (String c w0) Hw) as [-> ->];
    [discriminate|].
  rewrite append_cons, append_empty_l. simpl Str.lstrip.
  change (Str.isspace " ") with true. cbv iota.
  rewrite <- (lstrip_sub_spaces_from false text). reflexivity.
Qed.

Lemma normalization_ignores_outer_spacing_witness :
  Str.strip (Str.sub_spaces
               ((newline +:+ "  ") +:+ "Course starts Monday." +:+ (" " +:+ newline)))
  = Str.strip (Str.sub_spaces "Course starts Monday.").
Proof.
  apply (normalization_ignores_outer_spacing (newline +:+ "  ")
           "Course starts Monday." (" " +:+ newline)); reflexivity.
Defined.

Lemma sub_spaces_from_single_spaced (in_run : bool) (s : string) :
  single_spaced (Str.sub_spaces_from in_run s) = true
  ∧ (in_run = true → starts_space (Str.sub_spaces_from in_run s) = false).
Proof.
  revert in_run. induction s as [|c s IH]; intros in_run; simpl.
  - split; [reflexivity | reflexivity].
  - destruct (Str.isspace c) eqn:Hc.
    + destruct in_run.
      * apply IH.
      * destruct (IH true) as [Hs Hstart]. simpl.
        change (Str.isspace " ") with true. cbv iota.
        rewrite (Hstart eq_refl), Hs. split; [reflexivity | discriminate].
    + destruct (IH false) as [Hs _]. simpl. rewrite Hc, Hs.
      split; reflexivity.
Qed.

Lemma lstrip_single_spaced (s : string) :
  single_spaced s = true → single_spaced (Str.lstrip s) = true.
Proof.
  induction s as [|c s IH]; simpl; [reflexivity|].
  intros [Hc Hs]%andb_true_iff.
  destruct (Str.isspace c) eqn:Hsp; [exact (IH Hs)|].
  simpl. rewrite Hsp, Hs. reflexivity.
Qed.

Lemma lstrip_starts_space (s : string) : starts_space (Str.lstrip s) = false.
Proof.
  induction s as [|c s IH]; simpl; [reflexivity|].
  destruct (Str.isspace c) eqn:Hsp; [exact IH | simpl; exact Hsp].
Qed.

Lemma rstrip_first (s r : string) (d : ascii) :
  Str.rstrip s = String d r → starts_space s = Str.isspace d.
Proof.
  destruct s as [|c s]; simpl; [discriminate|].
  destruct (Str.rstrip s).
  - destruct (Str.isspace c) eqn:Hc; [discriminate|].
    intros [= <- _]. symmetry. exact Hc.
  - intros [= <- _]. reflexivity.
Qed.

Lemma rstrip_single_spaced (s : string) :
  single_spaced s = true → single_spaced (Str.rstrip s) = true.
Proof.
  induction s as [|c s IH]; simpl; [reflexivity|].
  intros [Hc Hs]%andb_true_iff. specialize (IH Hs).
  destruct (Str.rstrip s) as [|d r] eqn:Hr.
  - destruct (Str.isspace c) eqn:Hsp; [reflexivity|].
    simpl. rewrite Hsp. reflexivity.
  - change (single_spaced (String c (String d r)))
      with ((if Str.isspace c
             then Ascii.eqb c " " && negb (Str.isspace d) else true)
            && single_spaced (String d r)).
    rewrite IH, <- (rstrip_first s r d Hr), Hc. reflexivity.
Qed.

Lemma rstrip_ends_space (s : string) : ends_space (Str.rstrip s) = false.
Proof.
  induction s as [|c s IH]; simpl; [reflexivity|].
  destruct (Str.rstrip s) as [|d r].
  - destruct (Str.isspace c) eqn:Hsp; [reflexivity | simpl; exact Hsp].
  - exact IH.
Qed.

Lemma rstrip_starts_space (s : string) :
  starts_space s = false → starts_space (Str.rstrip s) = false.
Proof.
  destruct s as [|c s]; simpl; [reflexivity|]. intros Hc.
  destruct (Str.rstrip s); [rewrite Hc|]; simpl; exact Hc.
Qed.

Lemma sub_spaces_from_fixed (in_run : bool) (s : string) :
  single_spaced s = true →
  (in_run = true → starts_space s = false) →
  Str.sub_spaces_from in_run s = s.
Proof.
  revert in_run. induction s as [|c s IH]; intros in_run; simpl;
    [reflexivity|].
  intros [Hc Hs]%andb_true_iff Hstart.
  destruct (Str.isspace c) eqn:Hsp.
  - destruct in_run; [specialize (Hstart eq_refl); discriminate|].
    apply andb_true_iff in Hc as [Heq Hnext].
    apply Ascii.eqb_eq in Heq. subst c.
    rewrite (IH true Hs); [reflexivity|].
    intros _. destruct (starts_space s); [discriminate | reflexivity].
  - rewrite (IH false Hs); [reflexivity | discriminate].
Qed.

Lemma lstrip_fixed (s : string) : starts_space s = false → Str.lstrip s = s.
Proof. destruct s as [|c s]; simpl; [reflexivity|]. intros ->. reflexivity. Qed.

Lemma rstrip_fixed (s : string) : ends_space s = false → Str.rstrip s = s.
Proof.
  induction s as [|c s IH]; [reflexivity|].
  destruct s as [|d s'].
  - simpl. intros ->. reflexivity.
  - intros Hend. change (ends_space (String d s') = false) in Hend.
    change (Str.rstrip (String c (String d s')))
      with (match Str.rstrip (String d s') with
            | EmptyString =>
                if Str.isspace c then EmptyString else String c EmptyString
            | r => String c r
            end).
    rewrite (IH Hend). reflexivity.
Qed.

(** X3: the normalized text neither starts nor ends with white space, and
    its only white-space characters are single spaces, each followed by a
    character that is not white space. *)
Theorem normalized_text_shape (text : string) :
  starts_space (Str.strip (Str.sub_spaces text)) = false
  ∧ ends_space (Str.strip (Str.sub_spaces text)) = false
  ∧ single_spaced (Str.strip (Str.sub_spaces text)) = true.
Proof.
  unfold Str.strip, Str.sub_spaces. split; [|split].
  - apply rstrip_starts_space, lstrip_starts_space.
  - apply rstrip_ends_space.
  - apply rstrip_single_spaced, lstrip_single_spaced.
    apply (sub_spaces_from_single_spaced false text).
Qed.

(** X4: normalizing a normalized text changes nothing, so a stored text
    that is fetched again unchanged compares equal after any number of
    normalizations. *)
Theorem normalization_idempotent (text : string) :
  Str.strip (Str.sub_spaces (Str.strip (Str.sub_spaces text)))
  = Str.strip (Str.sub_spaces text).
Proof.
  assert (Hfix : ∀ n, starts_space n = false → ends_space n = false →
                      single_spaced n = true →
                      Str.strip (Str.sub_spaces n) = n).
  { intros n Hstart Hend Hsingle. unfold Str.strip, Str.sub_spaces.
    rewrite (sub_spaces_from_fixed false n Hsingle); [|discriminate].
    rewrite (lstrip_fixed n Hstart). exact (rstrip_fixed n Hend). }
  apply Hfix.
  - unfold Str.strip. apply rstrip_starts_space, lstrip_starts_space.
  - unfold Str.strip. apply rstrip_ends_space.
  - unfold Str.strip, Str.sub_spaces.
    apply rstrip_single_spaced, lstrip_single_spaced.
    apply (sub_spaces_from_single_spaced false text).
Qed.

(** ** The size of the request and the degenerate reply *)

Ltac eval_literal_lengths :=
  repeat match goal with
         | |- context [Str.len ?lit] =>
             lazymatch lit with
             | String _ _ => idtac
             | EmptyString => idtac
             | newline => idtac
             end;
             let n := eval vm_compute in (Str.len lit) in
             change (Str.len lit) with n
         end.

Lemma len_comparison_prompt (url site_title old_truncated new_truncated : string) :
  Str.len (comparison_prompt url site_title old_truncated new_truncated)
  = prompt_frame + Str.len site_title + Str.len url
    + Str.len old_truncated + Str.len new_truncated.
Proof.
  unfold comparison_prompt, prompt_frame. simpl Str.join.
  rewrite !len_append. eval_literal_lengths. lia.
Qed.

Lemma len_truncated (text : string) : Str.len (truncated text) ≤ max_chars + 3.
Proof.
  destruct (Z_le_gt_dec (Str.len text) max_chars) as [Hle|Hgt].
  - rewrite (truncated_short text Hle). lia.
  - assert (Hlt : max_chars < Str.len text) by lia.
    rewrite (truncated_long text Hlt), len_append, (len_slice_to text Hlt).
    vm_compute. discriminate.
Qed.

(** X5: the user message of the oracle call has at most 16601 characters
    more than the title and the URL: the size of the request does not grow
    with the size of the page. *)
Theorem oracle_request_bounded {W} (env : World W)
    (model url old_content new_content site_title : string) (s : state W) :
  ∃ prompt,
    trace (snd (compare_with_ai env model url old_content new_content
                  site_title s))
    = (trace s ++ [EvOracle model
                     [("system", system_message); ("user", prompt)] 200])%list
    ∧ Str.len prompt ≤ 16601 + Str.len site_title + Str.len url.
Proof.
  pose proof (compare_with_ai_run env model url old_content new_content
                site_title s) as Hrun.
  simpl in Hrun. rewrite Hrun. clear Hrun.
  eexists. split; [reflexivity|].
  rewrite len_comparison_prompt.
  pose proof (len_truncated old_content). pose proof (len_truncated new_content).
  unfold max_chars, prompt_frame in *. lia.
Qed.

(** X6: when the oracle replies with white space only (or with nothing),
    [compare_with_ai] returns the bare bullet ["- "], with no site and no
    description. *)
Theorem blank_reply_gives_bare_bullet {W} (env : World W)
    (model url old_content new_content site_title : string) (s : state W)
    (text : string) (others : completion) :
  oracle_reply env model
    (oracle_messages url site_title old_content new_content) s
  = Returns (Some text :: others) →
  blank text = true →
  fst (compare_with_ai env model url old_content new_content site_title s)
  = Returns "- ".
Proof.
  intros Hreply Hblank.
  pose proof (compare_with_ai_run env model url old_content new_content
                site_title s) as Hrun.
  simpl in Hrun. rewrite Hrun, Hreply. simpl.
  rewrite (strip_blank text Hblank). reflexivity.
Qed.

Lemma blank_reply_gives_bare_bullet_witness :
  fst (compare_with_ai blank_reply_world "llama3-8b-8192" ml_url
         "Course starts Monday." "Course starts Tuesday. New TA added."
         "ML course" (later_run old_ml_entry))
  = Returns "- ".
Proof.
  apply (blank_reply_gives_bare_bullet blank_reply_world "llama3-8b-8192" ml_url
           "Course starts Monday." "Course starts Tuesday. New TA added."
           "ML course" (later_run old_ml_entry) "   " []).
  - reflexivity.
  - reflexivity.
Defined.

(** ** What the loop never does *)

Section LoopFrames.

Context {W : Type}.
Variable env : World W.
Variable model : string.

Lemma storage_events_app (tr tr' : list event) :
  storage_events (tr ++ tr') = (storage_events tr ++ storage_events tr')%list.
Proof. unfold storage_events. apply List.filter_app. Qed.

Lemma extracted_raises (fetched : outcome page) (e : exn) :
  extracted fetched = Raises e →
  fetched = Raises e ∧ isinstance e Exception = false.
Proof.
  destruct fetched as [soup|e0]; simpl; [discriminate|].
  destruct (isinstance e0 RequestException); [discriminate|].
  destruct (isinstance e0 Exception) eqn:Hexn; [discriminate|].
  intros [= <-]. split; [reflexivity | exact Hexn].
Qed.

Lemma summary_of_raises (site_title : string) (reply : outcome completion)
    (e : exn) :
  summary_of site_title reply = Raises e →
  reply = Raises e ∧ isinstance e Exception = false.
Proof.
  destruct reply as [[|[text|] rest]|e0]; simpl; try discriminate.
  destruct (isinstance e0 Exception) eqn:Hexn; [discriminate|].
  intros [= <-]. split; [reflexivity | exact Hexn].
Qed.

(** One turn, however it ends, adds no call on the storage file. *)
Lemma process_url_frame (url : string) (stored_data : store)
    (results : list string) (s : state W) :
  storage_events (trace (snd (process_url env model url stored_data results s)))
  = storage_events (trace s).
Proof.
  destruct (get_website_content env url s) as [[[content site_title]|e0] s1]
    eqn:Hget.
  2: { assert (Hrun : process_url env model url stored_data results s
                      = (Raises e0, s1)).
       { unfold process_url, mbind, M_bind. rewrite Hget. reflexivity. }
       rewrite Hrun. rewrite get_website_content_run in Hget.
       injection Hget as _ <-. simpl.
       rewrite storage_events_app. simpl. apply app_nil_r. }
  assert (Hs1 : s1 = after_fetch env url s).
  { rewrite get_website_content_run in Hget. congruence. }
  assert (Hfetch : storage_events (trace s1) = storage_events (trace s)).
  { rewrite Hs1. simpl. rewrite storage_events_app. simpl. apply app_nil_r. }
  destruct (decide (content = "")) as [->|Hne].
  { rewrite (process_url_failed env model url site_title _ _ _ _ Hget).
    simpl. exact Hfetch. }
  destruct (stored_data !! url) as [entry|] eqn:Hold.
  - destruct (decide (entry !! "hash" = Some (calculate_content_hash env content)))
      as [Hsame|Hdiff].
    + rewrite (process_url_unchanged env model url content site_title _ _ entry
                 _ _ Hget Hne Hold Hsame).
      simpl. rewrite storage_events_app, Hfetch. simpl. apply app_nil_r.
    + pose proof (process_url_changed env model url content site_title
                    stored_data results entry s _ Hget Hne Hold Hdiff) as Hstep.
      simpl in Hstep. rewrite Hstep. clear Hstep.
      destruct (summary_of _ _) as [line|e1]; simpl.
      * rewrite !storage_events_app, Hfetch. simpl. rewrite !app_nil_r.
        reflexivity.
      * rewrite storage_events_app, Hfetch. simpl. apply app_nil_r.
  - rewrite (process_url_new env model url content site_title _ _ _ _
               Hget Hne Hold).
    simpl. rewrite !storage_events_app, Hfetch. simpl. rewrite !app_nil_r.
    reflexivity.
Qed.

Lemma for_each_url_frame (websites : list string) :
  ∀ (stored_data : store) (results : list string) (s : state W),
    storage_events
      (trace (snd (for_each_url env model websites stored_data results s)))
    = storage_events (trace s).
Proof.
  induction websites as [|url rest IH]; intros stored_data results s.
  - reflexivity.
  - pose proof (process_url_frame url stored_data results s) as Htrace.
    simpl. unfold mbind, M_bind.
    destruct (process_url env model url stored_data results s)
      as [[[sd1 rs1]|e1] s1]; simpl in *.
    + rewrite (IH sd1 rs1 s1). exact Htrace.
    + exact Htrace.
Qed.

End LoopFrames.

(** X7: whatever [get_website_content] or [compare_with_ai] raises derives
    from no [Exception]: the body of each is one [try] whose handlers take
    every [Exception], so that a failure of the fetch, of the processing of
    the page or of the oracle call becomes a return value, and only an
    interrupt of the process ([KeyboardInterrupt], [SystemExit]) leaves
    them. *)
Theorem extraction_and_oracle_raise_no_exception {W} (env : World W)
    (model url old_content new_content site_title : string)
    (s s' : state W) (e : exn) :
  get_website_content env url s = (Raises e, s')
  ∨ compare_with_ai env model url old_content new_content site_title s
    = (Raises e, s') →
  isinstance e Exception = false.
Proof.
  intros [Hget|Hcmp].
  - rewrite get_website_content_run in Hget. injection Hget as Hext _.
    exact (proj2 (extracted_raises _ _ Hext)).
  - pose proof (compare_with_ai_run env model url old_content new_content
                  site_title s) as Hrun.
    simpl in Hrun. rewrite Hrun in Hcmp. injection Hcmp as Hsum _.
    exact (proj2 (summary_of_raises _ _ _ Hsum)).
Qed.

Lemma extraction_and_oracle_raise_no_exception_witness :
  isinstance (Exn KeyboardInterrupt "") Exception = false.
Proof.
  apply (extraction_and_oracle_raise_no_exception interrupted_world
           "llama3-8b-8192" ml_url "" "" "" first_run
           (after_fetch interrupted_world ml_url first_run)).
  left. reflexivity.
Defined.

(** X8: in any world, and however it ends, the loop over the URLs makes no
    call on the storage file: the file is neither read nor written while
    the URLs are processed. *)
Theorem loop_leaves_storage_file {W} (env : World W) (model : string)
    (websites : list string) (stored_data : store) (results : list string)
    (s : state W) :
  storage_events
    (trace (snd (for_each_url env model websites stored_data results s)))
  = storage_events (trace s).
Proof.
  exact (for_each_url_frame env model websites stored_data results s).
Qed.

(** X9: when the loop is interrupted, [monitor_websites] raises what the
    loop raised and ends there: after the load it has made no call on the
    storage file, so the stored snapshot is as it was. *)
Theorem interrupted_run_writes_nothing {W} (env : World W) (model : string)
    (websites : list string) (loaded : store) (s s0 s1 : state W) (e : exn) :
  load_stored_data env s = (Returns loaded, s0) →
  for_each_url env model websites loaded [] s0 = (Raises e, s1) →
  monitor_websites env model websites s = (Raises e, s1)
  ∧ storage_events (trace s1) = storage_events (trace s0).
Proof.
  intros Hload Hloop. split.
  - unfold monitor_websites.
    unfold mbind at 1. unfold M_bind at 1. rewrite Hload.
    unfold mbind at 1. unfold M_bind at 1. rewrite Hloop. reflexivity.
  - pose proof (for_each_url_frame env model websites loaded [] s0)
      as Hframe.
    rewrite Hloop in Hframe. exact Hframe.
Qed.

Lemma interrupted_run_writes_nothing_witness :
  monitor_websites interrupted_world "llama3-8b-8192" [ml_url; gone_url]
    (later_run old_ml_entry)
  = (Raises (Exn KeyboardInterrupt ""),
     State (Disk course_clock true (Returns {[ml_url := old_ml_entry]}))
           [EvExists; EvLoad; EvGet ml_url])
  ∧ storage_events [EvExists; EvLoad; EvGet ml_url]
    = storage_events [EvExists; EvLoad].
Proof.
  apply (interrupted_run_writes_nothing interrupted_world "llama3-8b-8192"
           [ml_url; gone_url] {[ml_url := old_ml_entry]}
           (later_run old_ml_entry)
           (State (Disk course_clock true (Returns {[ml_url := old_ml_entry]}))
                  [EvExists; EvLoad])
           (State (Disk course_clock true (Returns {[ml_url := old_ml_entry]}))
                  [EvExists; EvLoad; EvGet ml_url])
           (Exn KeyboardInterrupt "")).
  - reflexivity.
  - reflexivity.
Defined.

(** ** How turns compose *)

Section Composition.

Context {W : Type}.
Variable env : World W.
Variable model : string.

(** After a turn that fetched a non-empty text and returned, the store
    holds for the URL a record whose [hash] is the digest of that text. *)
Lemma process_url_records_hash (url content site_title : string)
    (stored_data stored_data' : store) (results results' : list string)
    (s s0 s' : state W) :
  get_website_content env url s = (Returns (content, site_title), s0) →
  content ≠ "" →
  process_url env model url stored_data results s
  = (Returns (stored_data', results'), s') →
  ∃ entry, stored_data' !! url = Some entry
           ∧ entry !! "hash" = Some (calculate_content_hash env content).
Proof.
  intros Hget Hne Hrun.
  destruct (stored_data !! url) as [entry|] eqn:Hold.
  - destruct (decide (entry !! "hash" = Some (calculate_content_hash env content)))
      as [Hsame|Hdiff].
    + rewrite (process_url_unchanged env model url content site_title _ _ entry
                 _ _ Hget Hne Hold Hsame) in Hrun.
      injection Hrun as <- _ _. eauto.
    + pose proof (process_url_changed env model url content site_title
                    stored_data results entry s _ Hget Hne Hold Hdiff) as Hstep.
      simpl in Hstep. rewrite Hstep in Hrun. clear Hstep.
      destruct (summary_of _ _) as [line|e]; [|discriminate Hrun].
      injection Hrun as <- _ _. eexists. split; [apply lookup_insert_eq|].
      apply lookup_union_Some_l. reflexivity.
  - rewrite (process_url_new env model url content site_title _ _ _ _
               Hget Hne Hold) in Hrun.
    injection Hrun as <- _ _. eexists. split; [apply lookup_insert_eq|].
    reflexivity.
Qed.

End Composition.

(** X10: a URL that has just been processed with a non-empty text, and is
    processed again while the page still reads the same, gets the
    no-updates bullet: the store is left as the first turn made it and the
    oracle is not consulted, whichever way the first turn went (new,
    unchanged or changed). *)
Theorem second_observation_is_quiet {W} (env : World W)
    (model url content site_title site_title' : string)
    (stored_data stored_data1 : store) (results results1 : list string)
    (s s0 s1 s2 : state W) :
  get_website_content env url s = (Returns (content, site_title), s0) →
  content ≠ "" →
  process_url env model url stored_data results s
  = (Returns (stored_data1, results1), s1) →
  get_website_content env url s1 = (Returns (content, site_title'), s2) →
  process_url env model url stored_data1 results1 s1
  = (Returns (stored_data1,
              (results1 ++ ["- " +:+ site_title' +:+ ": No updates detected"])%list),
     after_sleep env 1 s2)
  ∧ oracle_calls (trace (after_sleep env 1 s2)) = oracle_calls (trace s1).
Proof.
  intros Hget Hne Hrun Hget'.
  destruct (process_url_records_hash env model url content site_title
              stored_data stored_data1 results results1 s s0 s1 Hget Hne Hrun)
    as (entry & Hentry & Hhash).
  split.
  - exact (process_url_unchanged env model url content site_title'
             stored_data1 results1 entry s1 s2 Hget' Hne Hentry Hhash).
  - rewrite get_website_content_run in Hget'. injection Hget' as _ <-.
    simpl. rewrite !oracle_calls_app. simpl. rewrite !app_nil_r. reflexivity.
Qed.

Lemma second_observation_is_quiet_witness :
  process_url course_world "llama3-8b-8192" ml_url
    (<[ml_url := dict_update old_ml_entry
                   (changed_fields "Course starts Tuesday. New TA added."
                      "md5:Course starts Tuesday. New TA added." "ML course"
                      "2025-09-01T10:00:00.000012")]>
       {[ml_url := old_ml_entry]})
    ["- ML course: the start moved to Tuesday"]
    (State (Disk (tl course_clock) true (Returns {[ml_url := old_ml_entry]}))
           [EvGet ml_url;
            EvOracle "llama3-8b-8192"
              (oracle_messages ml_url "ML course" "Course starts Monday."
                 "Course starts Tuesday. New TA added.") 200;
            EvNow; EvSleep 1])
  = (Returns
       (<[ml_url := dict_update old_ml_entry
                      (changed_fields "Course starts Tuesday. New TA added."
                         "md5:Course starts Tuesday. New TA added." "ML course"
                         "2025-09-01T10:00:00.000012")]>
          {[ml_url := old_ml_entry]},
        (["- ML course: the start moved to Tuesday"]
         ++ ["- " +:+ "ML course" +:+ ": No updates detected"])%list),
     after_sleep course_world 1
       (after_fetch course_world ml_url
          (State (Disk (tl course_clock) true
                    (Returns {[ml_url := old_ml_entry]}))
                 [EvGet ml_url;
                  EvOracle "llama3-8b-8192"
                    (oracle_messages ml_url "ML course" "Course starts Monday."
                       "Course starts Tuesday. New TA added.") 200;
                  EvNow; EvSleep 1])))
  ∧ oracle_calls
      (trace
         (after_sleep course_world 1
            (after_fetch course_world ml_url
               (State (Disk (tl course_clock) true
                         (Returns {[ml_url := old_ml_entry]}))
                      [EvGet ml_url;
                       EvOracle "llama3-8b-8192"
                         (oracle_messages ml_url "ML course"
                            "Course starts Monday."
                            "Course starts Tuesday. New TA added.") 200;
                       EvNow; EvSleep 1]))))
    = oracle_calls
        [EvGet ml_url;
         EvOracle "llama3-8b-8192"
           (oracle_messages ml_url "ML course" "Course starts Monday."
              "Course starts Tuesday. New TA added.") 200;
         EvNow; EvSleep 1].
Proof.
  apply (second_observation_is_quiet course_world "llama3-8b-8192" ml_url
           "Course starts Tuesday. New TA added." "ML course" "ML course"
           {[ml_url := old_ml_entry]} _ [] _
           (later_run old_ml_entry)
           (after_fetch course_world ml_url (later_run old_ml_entry))).
  - reflexivity.
  - discriminate.
  - vm_compute. reflexivity.
  - reflexivity.
Defined.

(** ** What the loop does to the store *)

(** X11: the loop only touches the records of the URLs it is given and
    never removes a record: in the store it returns, a URL outside the list
    has the record it had, every URL that was in the store still is, and a
    URL that was not in the store and now is belongs to the list. *)
Theorem loop_store_frame {W} (env : World W) (model : string)
    (websites : list string) (stored_data stored_data' : store)
    (results results' : list string) (s s' : state W) :
  for_each_url env model websites stored_data results s
  = (Returns (stored_data', results'), s') →
  (∀ url, url ∉ websites → stored_data' !! url = stored_data !! url)
  ∧ (∀ url, is_Some (stored_data !! url) → is_Some (stored_data' !! url))
  ∧ (∀ url, is_Some (stored_data' !! url) →
            is_Some (stored_data !! url) ∨ url ∈ websites).
Proof.
  revert stored_data results s.
  induction websites as [|first rest IH]; intros stored_data results s Hrun.
  - injection Hrun as <- _ _. repeat split; auto.
  - simpl in Hrun. unfold mbind at 1 in Hrun. unfold M_bind at 1 in Hrun.
    destruct (process_url env model first stored_data results s)
      as [[[sd1 rs1]|e] s1] eqn:Hstep; [|discriminate Hrun].
    destruct (IH _ _ _ Hrun) as (Hout & Hkeep & Hnew).
    assert (Hstep1 : ∀ url, url ≠ first → sd1 !! url = stored_data !! url).
    { intros url Hurl.
      destruct (process_url_store env model _ _ _ _ _ _ _ Hstep)
        as [->|[(_ & new & ->)|(old & c & h & t & l & _ & ->)]];
        [reflexivity | |]; apply lookup_insert_ne; congruence. }
    assert (Hstep2 : is_Some (stored_data !! first) → is_Some (sd1 !! first)).
    { intros Hsome.
      destruct (process_url_store env model _ _ _ _ _ _ _ Hstep)
        as [->|[(_ & new & ->)|(old & c & h & t & l & _ & ->)]];
        [exact Hsome | |]; rewrite lookup_insert_eq; eauto. }
    split; [|split].
    + intros url [Hne Hrest]%not_elem_of_cons.
      rewrite (Hout url Hrest). exact (Hstep1 url Hne).
    + intros url Hsome. apply Hkeep.
      destruct (decide (url = first)) as [->|Hne]; [exact (Hstep2 Hsome)|].
      rewrite (Hstep1 url Hne). exact Hsome.
    + intros url Hsome.
      destruct (decide (url = first)) as [->|Hne]; [right; left|].
      destruct (Hnew url Hsome) as [Hold|Hin]; [|right; right; exact Hin].
      left. rewrite <- (Hstep1 url Hne). exact Hold.
Qed.

Lemma loop_store_frame_witness :
  (∀ url, url ∉ [gone_url; ml_url] →
          ({[ml_url := baseline_entry "Course starts Tuesday. New TA added."
                         "md5:Course starts Tuesday. New TA added." "ML course"
                         "2025-09-01T10:00:00.000012"
                         "2025-09-01T10:00:00.000019"]} : store) !! url
          = (∅ : store) !! url)
  ∧ (∀ url, is_Some ((∅ : store) !! url) →
            is_Some (({[ml_url := baseline_entry
                                    "Course starts Tuesday. New TA added."
                                    "md5:Course starts Tuesday. New TA added."
                                    "ML course" "2025-09-01T10:00:00.000012"
                                    "2025-09-01T10:00:00.000019"]} : store)
                     !! url))
  ∧ (∀ url, is_Some (({[ml_url := baseline_entry
                                    "Course starts Tuesday. New TA added."
                                    "md5:Course starts Tuesday. New TA added."
                                    "ML course" "2025-09-01T10:00:00.000012"
                                    "2025-09-01T10:00:00.000019"]} : store)
                     !! url) →
            is_Some ((∅ : store) !! url) ∨ url ∈ [gone_url; ml_url]).
Proof.
  apply (loop_store_frame course_world "llama3-8b-8192" [gone_url; ml_url]
           ∅ _ []
           ["- https://cs.example/gone: Failed to fetch content";
            "- ML course: Added to monitoring (baseline established)"]
           first_run
           (State (Disk ["2025-09-01T10:00:02.500000"] false (Returns ∅))
                  [EvGet gone_url; EvGet ml_url; EvNow; EvNow; EvSleep 1])).
  vm_compute. reflexivity.
Defined.

(** X12: on a list of distinct URLs none of which is in the store (a first
    run, or a run after the storage file was lost), in a world whose fetch
    failures are exceptions, the loop returns without consulting the
    oracle, and the line of each URL is either its failed-to-fetch line or
    an added-to-monitoring line. *)
Theorem first_run_never_asks_oracle {W} (env : World W) (model : string)
    (websites : list string) (stored_data : store) (results : list string)
    (s : state W) :
  fetch_failures_are_exceptions env →
  NoDup websites →
  (∀ url, url ∈ websites → stored_data !! url = None) →
  ∃ stored_data' lines s',
    for_each_url env model websites stored_data results s
    = (Returns (stored_data', (results ++ lines)%list), s')
    ∧ oracle_calls (trace s') = oracle_calls (trace s)
    ∧ Forall2 (λ url line,
                 line = "- " +:+ url +:+ ": Failed to fetch content"
                 ∨ ∃ site_title,
                     line = "- " +:+ site_title
                            +:+ ": Added to monitoring (baseline established)")
        websites lines.
Proof.
  intros Hfetch.
  revert stored_data results s.
  induction websites as [|url rest IH]; intros stored_data results s Hnodup Hnew.
  - exists stored_data, [], s. simpl. rewrite app_nil_r.
    repeat split. constructor.
  - apply NoDup_cons in Hnodup as [Hfresh Hnodup].
    destruct (get_website_content_returns env url s Hfetch)
      as (content & site_title & Hget).
    assert (Hturn : ∃ sd1 line s1,
               process_url env model url stored_data results s
               = (Returns (sd1, (results ++ [line])%list), s1)
               ∧ oracle_calls (trace s1) = oracle_calls (trace s)
               ∧ (line = "- " +:+ url +:+ ": Failed to fetch content"
                  ∨ ∃ t, line = "- " +:+ t
                                +:+ ": Added to monitoring (baseline established)")
               ∧ ∀ other, other ≠ url → sd1 !! other = stored_data !! other).
    { destruct (decide (content = "")) as [->|Hne].
      - do 3 eexists.
        split; [exact (process_url_failed env model url site_title _ _ _ _ Hget)|].
        split; [simpl; rewrite oracle_calls_app; simpl; apply app_nil_r|].
        split; [left; reflexivity | reflexivity].
      - do 3 eexists.
        split; [exact (process_url_new env model url content site_title _ _ _ _
                         Hget Hne (Hnew url (list_elem_of_here url rest)))|].
        split; [simpl; rewrite !oracle_calls_app; simpl; rewrite !app_nil_r;
                reflexivity|].
        split; [right; eauto|].
        intros other Hother. apply lookup_insert_ne. congruence. }
    destruct Hturn as (sd1 & line & s1 & Hstep & Hcalls1 & Hline & Hframe).
    destruct (IH sd1 (results ++ [line])%list s1 Hnodup)
      as (sd2 & lines & s2 & Hrest & Hcalls2 & Hlines).
    { intros other Hin. rewrite Hframe; [|intros ->; contradiction].
      apply Hnew. apply list_elem_of_further, Hin. }
    exists sd2, (line :: lines), s2. split.
    { simpl. unfold mbind at 1. unfold M_bind at 1. rewrite Hstep.
      rewrite Hrest, <- app_assoc. reflexivity. }
    split; [congruence | constructor; assumption].
Qed.

Lemma first_run_never_asks_oracle_witness :
  ∃ stored_data' lines s',
    for_each_url course_world "llama3-8b-8192" [gone_url; ml_url; blank_url]
      ∅ [] first_run
    = (Returns (stored_data', ([] ++ lines)%list), s')
    ∧ oracle_calls (trace s') = oracle_calls (trace first_run)
    ∧ Forall2 (λ url line,
                 line = "- " +:+ url +:+ ": Failed to fetch content"
                 ∨ ∃ site_title,
                     line = "- " +:+ site_title
                            +:+ ": Added to monitoring (baseline established)")
        [gone_url; ml_url; blank_url] lines.
Proof.
  apply (first_run_never_asks_oracle course_world "llama3-8b-8192"
           [gone_url; ml_url; blank_url] ∅ [] first_run).
  - exact course_world_fetch_failures.
  - repeat (apply NoDup_cons_2 || apply NoDup_nil_2);
      rewrite ?not_elem_of_cons; repeat split;
      try discriminate; apply not_elem_of_nil.
  - intros url _. reflexivity.
Defined.

(** ** The storage file at the two ends of a run *)

(** X13: when the write of the store fails after the loop has returned, an
    [IOError] is absorbed and [monitor_websites] still returns the result
    lines of the run; any other exception leaves [monitor_websites], and
    the lines are lost although every URL was processed.  Either way the
    write was attempted once, last, with the store the loop returned. *)
Theorem write_failure_after_loop {W} (env : World W) (model : string)
    (websites : list string) (loaded stored_data' : store)
    (results : list string) (s s0 s1 : state W) (e : exn) (w' : W) :
  load_stored_data env s = (Returns loaded, s0) →
  for_each_url env model websites loaded [] s0
  = (Returns (stored_data', results), s1) →
  json_dump env stored_data' (world s1) = (Some e, w') →
  monitor_websites env model websites s
  = (if isinstance e IOError then Returns results else Raises e,
     State w' (trace s1 ++ [EvSave stored_data'])%list).
Proof.
  intros Hload Hloop Hdump. unfold monitor_websites.
  unfold mbind at 1. unfold M_bind at 1. rewrite Hload.
  unfold mbind at 1. unfold M_bind at 1. rewrite Hloop.
  unfold mbind at 1. unfold M_bind at 1.
  unfold save_stored_data, storage_write, try_except, call. rewrite Hdump.
  destruct (isinstance e IOError); reflexivity.
Qed.

Lemma write_failure_after_loop_witness :
  monitor_websites read_only_world "llama3-8b-8192" [gone_url]
    (later_run old_ml_entry)
  = (if isinstance (Exn PermissionError "[Errno 13] Permission denied") IOError
     then Returns ["- https://cs.example/gone: Failed to fetch content"]
     else Raises (Exn PermissionError "[Errno 13] Permission denied"),
     State (Disk course_clock true (Returns {[ml_url := old_ml_entry]}))
           ([EvExists; EvLoad; EvGet gone_url]
            ++ [EvSave {[ml_url := old_ml_entry]}])%list).
Proof.
  apply (write_failure_after_loop read_only_world "llama3-8b-8192" [gone_url]
           {[ml_url := old_ml_entry]} {[ml_url := old_ml_entry]}
           ["- https://cs.example/gone: Failed to fetch content"]
           (later_run old_ml_entry)
           (State (Disk course_clock true (Returns {[ml_url := old_ml_entry]}))
                  [EvExists; EvLoad])
           (State (Disk course_clock true (Returns {[ml_url := old_ml_entry]}))
                  [EvExists; EvLoad; EvGet gone_url])).
  - reflexivity.
  - reflexivity.
  - reflexivity.
Defined.

(** X14: on the empty list [monitor_websites] fetches nothing and returns
    no line, but it still writes the storage file, with the mapping it
    loaded: run on no URL, it creates the file when it was missing and
    replaces an unreadable one by the empty mapping. *)
Theorem empty_list_rewrites_storage {W} (env : World W) (model : string)
    (loaded : store) (s s0 : state W) :
  write_failures_are_ioerrors env →
  load_stored_data env s = (Returns loaded, s0) →
  monitor_websites env model [] s
  = (Returns [],
     State (snd (json_dump env loaded (world s0)))
           (trace s0 ++ [EvSave loaded])%list).
Proof.
  intros Hwrite Hload. unfold monitor_websites.
  unfold mbind at 1. unfold M_bind at 1. rewrite Hload.
  unfold mbind at 1. unfold M_bind at 1. simpl for_each_url.
  unfold mret at 1. unfold M_ret at 1.
  unfold mbind at 1. unfold M_bind at 1.
  rewrite (save_stored_data_run env loaded s0 Hwrite). reflexivity.
Qed.

Lemma empty_list_rewrites_storage_witness :
  monitor_websites course_world "llama3-8b-8192" [] first_run
  = (Returns [],
     State (snd (json_dump course_world ∅
                   (world (State (Disk course_clock false (Returns ∅))
                                 [EvExists]))))
           ([EvExists] ++ [EvSave ∅])%list).
Proof.
  apply (empty_list_rewrites_storage course_world "llama3-8b-8192" ∅ first_run
           (State (Disk course_clock false (Returns ∅)) [EvExists])).
  - exact course_world_write_failures.
  - reflexivity.
Defined.



(** ** The entry point *)

Lemma monitor_websites_returns {W} (env : World W) (model : string)
    (websites : list string) (loaded : store) (s s0 : state W) :
  fetch_failures_are_exceptions env →
  oracle_failures_are_exceptions env →
  write_failures_are_ioerrors env →
  load_stored_data env s = (Returns loaded, s0) →
  ∃ results s',
    monitor_websites env model websites s = (Returns results, s')
    ∧ Forall2 (λ _ line, Str.startswith "-" line = true) websites results.
Proof.
  intros Hfetch Horacle Hwrite Hload.
  destruct (for_each_url_total env model websites Hfetch Horacle loaded [] s0)
    as (sd' & lines & s1 & Hrun & Hall & _ & _).
  simpl in Hrun. eexists lines, _. split; [|exact Hall].
  unfold monitor_websites.
  unfold mbind at 1. unfold M_bind at 1. rewrite Hload.
  unfold mbind at 1. unfold M_bind at 1. rewrite Hrun.
  unfold mbind at 1. unfold M_bind at 1.
  rewrite (save_stored_data_run env sd' s1 Hwrite). reflexivity.
Qed.

(** X16: without a value for [GROQ_API_KEY], or with the empty string for
    it, [main] prints its three lines of advice and exits with status 1
    before the monitor is constructed: the world is as it was, nothing is
    fetched and the storage file is not touched. *)
Theorem main_without_key_exits {W} (env : World W)
    (groq_api_key : option string) (args : arguments) (init : option exn)
    (s : state W) :
  groq_api_key = None ∨ groq_api_key = Some "" →
  main env groq_api_key args init s
  = (["Error: GROQ_API_KEY environment variable not set";
      "Get your API key from: https://console.groq.com/";
      "Then set it with: export GROQ_API_KEY=your_api_key_here"],
     SysExit 1, s).
Proof. intros [->| ->]; reflexivity. Qed.

Lemma main_without_key_exits_witness :
  main course_world (Some "") default_args None first_run
  = (["Error: GROQ_API_KEY environment variable not set";
      "Get your API key from: https://console.groq.com/";
      "Then set it with: export GROQ_API_KEY=your_api_key_here"],
     SysExit 1, first_run).
Proof.
  apply (main_without_key_exits course_world (Some "") default_args None
           first_run).
  right. reflexivity.
Defined.

(** X17: with a key and a monitor that constructs, in a world whose fetch
    and oracle failures are exceptions and whose storage file loads and
    can be written, [main] returns normally after printing the five lines
    of its header, the results heading, and three bullet lines, one for
    each configured website. *)
Theorem main_prints_one_bullet_per_website {W} (env : World W)
    (key : string) (args : arguments) (loaded : store) (s s0 : state W) :
  key ≠ "" →
  fetch_failures_are_exceptions env →
  oracle_failures_are_exceptions env →
  write_failures_are_ioerrors env →
  load_stored_data env s = (Returns loaded, s0) →
  ∃ results s',
    main env (Some key) args None s
    = ((["Website Update Monitor";
         "Monitoring 3 website(s)...";
         "Using model: " +:+ args_model args;
         "Data directory: " +:+ data_dir args;
         "--------------------------------------------------";
         newline +:+ "Monitoring Results:"] ++ results)%list,
       Completed, s')
    ∧ monitor_websites env (args_model args) main_websites s
      = (Returns results, s')
    ∧ length results = 3%nat
    ∧ Forall (λ line, Str.startswith "-" line = true) results.
Proof.
  intros Hkey Hfetch Horacle Hwrite Hload.
  destruct (monitor_websites_returns env (args_model args) main_websites
              loaded s s0 Hfetch Horacle Hwrite Hload)
    as (results & s' & Hrun & Hall).
  exists results, s'. split; [|split; [exact Hrun|split]].
  - unfold main. simpl default.
    destruct (decide (key = "")) as [|_]; [contradiction|].
    simpl. rewrite Hrun. reflexivity.
  - symmetry. exact (Forall2_length _ _ _ Hall).
  - clear Hrun. induction Hall; constructor; assumption.
Qed.

Lemma main_prints_one_bullet_per_website_witness :
  ∃ results s',
    main course_world (Some "gsk_example") default_args None first_run
    = ((["Website Update Monitor";
         "Monitoring 3 website(s)...";
         "Using model: " +:+ args_model default_args;
         "Data directory: " +:+ data_dir default_args;
         "--------------------------------------------------";
         newline +:+ "Monitoring Results:"] ++ results)%list,
       Completed, s')
    ∧ monitor_websites course_world (args_model default_args) main_websites
        first_run
      = (Returns results, s')
    ∧ length results = 3%nat
    ∧ Forall (λ line, Str.startswith "-" line = true) results.
Proof.
  apply (main_prints_one_bullet_per_website course_world "gsk_example"
           default_args ∅ first_run
           (State (Disk course_clock false (Returns ∅)) [EvExists])).
  - discriminate.
  - exact course_world_fetch_failures.
  - exact course_world_oracle_failures.
  - exact course_world_write_failures.
  - reflexivity.
Defined.

(** X18: when the storage file exists and reading it raises an exception
    that [load_stored_data] does not absorb (bytes that are not valid UTF-8,
    for one), [main] prints its header and the line of that error and exits
    with status 1: the whole run is given up, and no URL has been
    fetched. *)
Theorem main_gives_up_on_unreadable_storage {W} (env : World W)
    (key : string) (args : arguments) (s s' : state W) (e : exn) :
  key ≠ "" →
  load_stored_data env s = (Raises e, s') →
  isinstance e Exception = true →
  main env (Some key) args None s
  = ((main_header args ++ ["Error: " +:+ exn_str e])%list, SysExit 1, s')
  ∧ fetched_urls (trace s') = fetched_urls (trace s).
Proof.
  intros Hkey Hload Hexn.
  assert (Hki : isinstance e KeyboardInterrupt = false).
  { destruct e as [[] description]; done. }
  split.
  - unfold main. simpl default.
    destruct (decide (key = "")) as [|_]; [contradiction|].
    simpl. unfold monitor_websites.
    unfold mbind at 1. unfold M_bind at 1. rewrite Hload.
    rewrite Hki, Hexn. reflexivity.
  - revert Hload.
    unfold load_stored_data, storage_exists, storage_read. run_monad. simpl.
    destruct (storage_file_exists env (world s)) as [[[|]|e1] w1]; simpl.
    + destruct (json_load env w1) as [[data|e0] w2]; simpl; [discriminate|].
      destruct (isinstance e0 JSONDecodeError || isinstance e0 IOError);
        [discriminate|].
      intros [= _ <-]. simpl. rewrite !fetched_urls_app. simpl.
      rewrite !app_nil_r. reflexivity.
    + discriminate.
    + intros [= _ <-]. simpl. rewrite fetched_urls_app. simpl.
      apply app_nil_r.
Qed.

Lemma main_gives_up_on_unreadable_storage_witness :
  main course_world (Some "gsk_example") default_args None garbled_run
  = ((main_header default_args
      ++ ["Error: " +:+
          exn_str (Exn UnicodeDecodeError
            "'utf-8' codec can't decode byte 0xff in position 0: invalid start byte")])%list,
     SysExit 1, State (world garbled_run) [EvExists; EvLoad])
  ∧ fetched_urls (trace (State (world garbled_run) [EvExists; EvLoad]))
    = fetched_urls (trace garbled_run).
Proof.
  apply (main_gives_up_on_unreadable_storage course_world "gsk_example"
           default_args garbled_run
           (State (world garbled_run) [EvExists; EvLoad])).
  - discriminate.
  - reflexivity.
  - reflexivity.
Defined.

(** X19: when the user interrupts the loop, [main] prints its header and
    the interruption line and exits with status 1, and the run has made no
    call on the storage file since the load: nothing of the run is
    saved. *)
Theorem main_interrupted_saves_nothing {W} (env : World W)
    (key : string) (args : arguments) (loaded : store) (s s0 s1 : state W)
    (e : exn) :
  key ≠ "" →
  load_stored_data env s = (Returns loaded, s0) →
  for_each_url env (args_model args) main_websites loaded [] s0
  = (Raises e, s1) →
  isinstance e KeyboardInterrupt = true →
  main env (Some key) args None s
  = ((main_header args
      ++ [newline +:+ "Monitoring interrupted by user"])%list,
     SysExit 1, s1)
  ∧ storage_events (trace s1) = storage_events (trace s0).
Proof.
  intros Hkey Hload Hloop Hki. split.
  - unfold main. simpl default.
    destruct (decide (key = "")) as [|_]; [contradiction|].
    simpl. unfold monitor_websites.
    unfold mbind at 1. unfold M_bind at 1. rewrite Hload.
    unfold mbind at 1. unfold M_bind at 1. rewrite Hloop.
    rewrite Hki. reflexivity.
  - pose proof (for_each_url_frame env (args_model args) main_websites
                  loaded [] s0) as Hframe.
    rewrite Hloop in Hframe. exact Hframe.
Qed.

Lemma main_interrupted_saves_nothing_witness :
  main interrupted_world (Some "gsk_example") default_args None
    (later_run old_ml_entry)
  = ((main_header default_args
      ++ [newline +:+ "Monitoring interrupted by user"])%list,
     SysExit 1,
     State (Disk course_clock true (Returns {[ml_url := old_ml_entry]}))
           [EvExists; EvLoad;
            EvGet "https://qiyanjun.github.io/2025Fall-UVA-CS-MachineLearningDeep/"])
  ∧ storage_events
      [EvExists; EvLoad;
       EvGet "https://qiyanjun.github.io/2025Fall-UVA-CS-MachineLearningDeep/"]
    = storage_events [EvExists; EvLoad].
Proof.
  apply (main_interrupted_saves_nothing interrupted_world "gsk_example"
           default_args {[ml_url := old_ml_entry]} (later_run old_ml_entry)
           (State (Disk course_clock true (Returns {[ml_url := old_ml_entry]}))
                  [EvExists; EvLoad])
           (State (Disk course_clock true (Returns {[ml_url := old_ml_entry]}))
                  [EvExists; EvLoad;
                   EvGet "https://qiyanjun.github.io/2025Fall-UVA-CS-MachineLearningDeep/"])
           (Exn KeyboardInterrupt "")).
  - discriminate.
  - reflexivity.
  - reflexivity.
  - reflexivity.
Defined.

(** ** The cost of a run *)

Section Cost.

Context {W : Type}.
Variable env : World W.
Variable model : string.

Lemma process_url_oracle_calls (url : string) (stored_data : store)
    (results : list string) (s : state W) :
  (length (oracle_calls
             (trace (snd (process_url env model url stored_data results s))))
   ≤ length (oracle_calls (trace s)) + 1)%nat.
Proof.
  destruct (get_website_content env url s) as [[[content site_title]|e0] s1]
    eqn:Hget.
  2: { assert (Hrun : process_url env model url stored_data results s
                      = (Raises e0, s1)).
       { unfold process_url, mbind, M_bind. rewrite Hget. reflexivity. }
       rewrite Hrun. rewrite get_website_content_run in Hget.
       injection Hget as _ <-. simpl.
       rewrite oracle_calls_app, length_app. simpl. lia. }
  assert (Hfetch : oracle_calls (trace s1) = oracle_calls (trace s)).
  { rewrite get_website_content_run in Hget. injection Hget as _ <-.
    simpl. rewrite oracle_calls_app. simpl. apply app_nil_r. }
  destruct (decide (content = "")) as [->|Hne].
  { rewrite (process_url_failed env model url site_title _ _ _ _ Hget).
    simpl. rewrite Hfetch. lia. }
  destruct (stored_data !! url) as [entry|] eqn:Hold.
  - destruct (decide (entry !! "hash" = Some (calculate_content_hash env content)))
      as [Hsame|Hdiff].
    + rewrite (process_url_unchanged env model url content site_title _ _ entry
                 _ _ Hget Hne Hold Hsame).
      simpl. rewrite oracle_calls_app, Hfetch, length_app. simpl. lia.
    + pose proof (process_url_changed env model url content site_title
                    stored_data results entry s _ Hget Hne Hold Hdiff) as Hstep.
      simpl in Hstep. rewrite Hstep. clear Hstep.
      destruct (summary_of _ _) as [line|e1]; simpl;
        rewrite !oracle_calls_app, Hfetch, !length_app; simpl; lia.
  - rewrite (process_url_new env model url content site_title _ _ _ _
               Hget Hne Hold).
    simpl. rewrite !oracle_calls_app, Hfetch, !length_app. simpl. lia.
Qed.

End Cost.

(** X20: in any world, and however the loop ends, it consults the oracle at
    most once for each URL of the list. *)
Theorem loop_oracle_calls_bounded {W} (env : World W) (model : string)
    (websites : list string) (stored_data : store) (results : list string)
    (s : state W) :
  (length (oracle_calls
             (trace (snd (for_each_url env model websites stored_data
                            results s))))
   ≤ length (oracle_calls (trace s)) + length websites)%nat.
Proof.
  revert stored_data results s.
  induction websites as [|url rest IH]; intros stored_data results s.
  - simpl. lia.
  - pose proof (process_url_oracle_calls env model url stored_data results s)
      as Hstep.
    simpl. unfold mbind, M_bind.
    destruct (process_url env model url stored_data results s)
      as [[[sd1 rs1]|e1] s1]; simpl in *.
    + specialize (IH sd1 rs1 s1). lia.
    + lia.
Qed.
